(** * Big Brother watch list: [bot/cogs/watchchannels/bigbrother.py]

    A shallow embedding of [BigBrother.apply_watch] and
    [BigBrother.apply_unwatch] together with the collaborators they call
    (the infraction store behind [bot.api_client], [post_infraction],
    [WatchChannel.fetch_user_cache], [WatchChannel._remove_user]), and the
    properties of the watch list that follow from the code. *)

From stdpp Require Import gmap strings list fin_maps sorting pretty.

(** ** Data model *)

(** The stored fields of one infraction; the store keys them by [id]. *)
Record fields := Fields {
  inf_user : nat;
  inf_active : bool;
  inf_type : string;
  inf_reason : string;
  inf_hidden : bool;
  inf_inserted_at : nat
}.

(** What [post_infraction] sends: the backend adds [id] and [inserted_at]. *)
Record payload := Payload {
  new_user : nat;
  new_type : string;
  new_reason : string;
  new_hidden : bool;
  new_active : bool
}.

(** An infraction as the API hands it out: its [id] and its fields. *)
Abbreviation infraction := (nat * fields)%type.

Definition inf_id (r : infraction) : nat := r.1.

(** [discord.User] as far as the cog looks at it: [user.id], [user.bot] and
    [str(user)]. *)
Record FetchedMember := Member {
  user_id : nat;
  user_bot : bool;
  user_str : string
}.

(** [discord.ext.commands.Context]: [str(ctx.author)]; what is sent to it is
    recorded in the event log. *)
Record Context := Ctx { ctx_author : string }.

(** The filter of an API query.  Both queries of the cog ask for
    ['ordering': '-inserted_at']. *)
Record params := Params {
  p_user__id : option nat;
  p_active : bool;
  p_type : string
}.

Inductive exn := ValueError | IndexError | ResponseCodeError.

Inductive result (A : Type) :=
  | Ok (a : A)
  | Raise (e : exn).
Arguments Ok {A} a.
Arguments Raise {A} e.

(** What an operation does to the outside, in the order it does it. *)
Inductive event :=
  | EvSend (msg : string)
  | EvApiGet (p : params) (ok : bool)
  | EvApiPost (new : payload) (response : option infraction)
  | EvApiPatch (i : nat) (active : bool) (ok : bool)
  | EvCacheRefresh (ok : bool)
  | EvCachePut (u : nat) (r : infraction)
  | EvCacheRemove (u : nat).

(** The infraction store of the site API and the cog's [watched_users]. *)
Record State := mkState {
  backend : gmap nat fields;
  watched_users : gmap nat infraction
}.

(** Which of the backend's answers to one operation are failures: section 5
    lets a backend call complete, return empty, or fail outright. *)
Record Env := mkEnv {
  fetch_ok : bool;
  post_ok : bool;
  get_ok : bool;
  patch_ok : bool
}.

(** ** A state, exception and log monad

    State changes made before an exception is raised stay, as in Python. *)
Definition M (A : Type) : Type := State → result A * State * list event.

Definition ret {A} (a : A) : M A := λ st, (Ok a, st, []).

Definition bind {A B} (m : M A) (k : A → M B) : M B := λ st,
  match m st with
  | (Ok a, st1, evs1) =>
      match k a st1 with
      | (r, st2, evs2) => (r, st2, evs1 ++ evs2)
      end
  | (Raise e, st1, evs1) => (Raise e, st1, evs1)
  end.

Definition raise {A} (e : exn) : M A := λ st, (Raise e, st, []).

Definition emit (e : event) : M unit := λ st, (Ok tt, st, [e]).

Definition get_state : M State := λ st, (Ok st, st, []).

Definition put_state (st : State) : M unit := λ _, (Ok tt, st, []).

Global Instance M_ret : MRet M := @ret.
Global Instance M_bind : MBind M := λ A B k m, bind m k.

Definition res {A} (x : result A * State * list event) : result A := x.1.1.
Definition st_of {A} (x : result A * State * list event) : State := x.1.2.
Definition evs_of {A} (x : result A * State * list event) : list event := x.2.

(** ** The infraction store *)

Definition matches (p : params) (r : infraction) : bool :=
  match p_user__id p with
  | Some u => bool_decide (inf_user r.2 = u)
  | None => true
  end
  && bool_decide (inf_active r.2 = p_active p)
  && bool_decide (inf_type r.2 = p_type p).

(** ['ordering': '-inserted_at']: newest first. *)
Definition newer_first (r1 r2 : infraction) : Prop :=
  inf_inserted_at r2.2 ≤ inf_inserted_at r1.2.

Global Instance newer_first_dec : RelDecision newer_first :=
  λ r1 r2, decide (inf_inserted_at r2.2 ≤ inf_inserted_at r1.2).

(** Modelled from the spec: [bot.api_client.get] on ['bot/infractions'] is
    not in the source; section 6 gives [query(filter)]: the records that
    match the filter on subject, [active] and kind, newest first by
    [insertedAt]. *)
Definition query (p : params) (db : gmap nat fields) : list infraction :=
  merge_sort newer_first (filter (λ r, matches p r = true) (map_to_list db)).

(** Modelled from the spec: the backend's choice of [id] and [insertedAt]
    is not in the source; section 3 only has the backend assign them.  Here
    both are one more than the largest in the store. *)
Definition fresh_id (db : gmap nat fields) : nat :=
  S (max_list (map_to_list db).*1).

Definition next_stamp (db : gmap nat fields) : nat :=
  S (max_list_with (λ r : infraction, inf_inserted_at r.2) (map_to_list db)).

(** Modelled from the spec: the API's create endpoint is not in the source;
    section 3 has the backend assign [id] and [insertedAt]. *)
Definition create (new : payload) (db : gmap nat fields) : infraction :=
  (fresh_id db,
   {| inf_user := new_user new;
      inf_active := new_active new;
      inf_type := new_type new;
      inf_reason := new_reason new;
      inf_hidden := new_hidden new;
      inf_inserted_at := next_stamp db |}).

Definition set_active (b : bool) (f : fields) : fields :=
  {| inf_user := inf_user f;
     inf_active := b;
     inf_type := inf_type f;
     inf_reason := inf_reason f;
     inf_hidden := inf_hidden f;
     inf_inserted_at := inf_inserted_at f |}.

(** Modelled from the spec: [bot.api_client.patch] is not in the source;
    section 6 gives [patch(recordId, {active: bool}) -> void | error]. *)
Definition patch (i : nat) (b : bool) (db : gmap nat fields) :
    gmap nat fields :=
  alter (set_active b) i db.

(** ** The collaborators, as operations of the monad *)

(** [await ctx.send(msg)] *)
Definition ctx_send (ctx : Context) (msg : string) : M unit :=
  emit (EvSend msg).

(** Modelled from the spec: [bot.api_client.get] is not in the source; by
    section 5 a backend call completes or fails outright, which the client
    raises. *)
Definition api_get (env : Env) (p : params) : M (list infraction) :=
  emit (EvApiGet p (get_ok env));;
  if get_ok env then
    st ← get_state;
    mret (query p (backend st))
  else raise ResponseCodeError.

(** Modelled from the spec: [bot.api_client.patch] is not in the source;
    section 6: [void | error]. *)
Definition api_patch (env : Env) (i : nat) (b : bool) : M unit :=
  emit (EvApiPatch i b (patch_ok env));;
  if patch_ok env then
    st ← get_state;
    put_state (mkState (patch i b (backend st)) (watched_users st))
  else raise ResponseCodeError.

(** Modelled from the spec: [post_infraction] of
    [bot.cogs.moderation.utils] is not in the source; section 6 gives
    [create(record) -> WatchRecord | empty], empty signalling a failed
    write. *)
Definition post_infraction (env : Env) (ctx : Context) (user : FetchedMember)
    (infr_type reason : string) (hidden active : bool) :
    M (option infraction) :=
  let new :=
    {| new_user := user_id user; new_type := infr_type; new_reason := reason;
       new_hidden := hidden; new_active := active |} in
  st ← get_state;
  if post_ok env then
    let r := create new (backend st) in
    emit (EvApiPost new (Some r));;
    put_state (mkState (<[r.1 := r.2]> (backend st)) (watched_users st));;
    mret (Some r)
  else
    emit (EvApiPost new None);;
    mret None.

(** [api_default_params] of [BigBrother.__init__]. *)
Definition api_default_params : params :=
  {| p_user__id := None; p_active := true; p_type := "watch" |}.

(** Modelled from the spec: the cache is a mapping from subject to its
    active watch record (section 3); built from the records of a refresh. *)
Definition cache_of (data : list infraction) : gmap nat infraction :=
  fold_left (λ m r, <[inf_user r.2 := r]> m) data ∅.

(** Modelled from the spec: [WatchChannel.fetch_user_cache] is not in the
    source; section 4.1 gives [refresh()]: fetch all active watch records and
    replace the cache map, or report failure and leave the cache as it
    was. *)
Definition fetch_user_cache (env : Env) : M bool :=
  emit (EvCacheRefresh (fetch_ok env));;
  if fetch_ok env then
    st ← get_state;
    put_state (mkState (backend st)
                 (cache_of (query api_default_params (backend st))));;
    mret true
  else mret false.

(** Modelled from the spec: [WatchChannel._remove_user] is not in the
    source; section 4.1 gives [remove(subjectId)]. *)
Definition _remove_user (u : nat) : M unit :=
  emit (EvCacheRemove u);;
  st ← get_state;
  put_state (mkState (backend st) (delete u (watched_users st))).

(** [self.watched_users[user.id] = response] *)
Definition cache_put (u : nat) (r : infraction) : M unit :=
  emit (EvCachePut u r);;
  st ← get_state;
  put_state (mkState (backend st) (<[u := r]> (watched_users st))).

(** [history[i]], which raises [IndexError] out of range. *)
Definition index {A} (l : list A) (i : nat) : M A :=
  match l !! i with
  | Some x => mret x
  | None => raise IndexError
  end.

Definition nl : string := String (Ascii.ascii_of_nat 10) EmptyString.

(** ** The history digest of [apply_watch] (lines 93 to 97) *)

Record digest := Digest {
  episode_count : nat;
  end_reason : string;
  start_reason : string
}.

Definition render (d : digest) : string :=
  let total :=
    "(" +:+ pretty (episode_count d) +:+ " previous infractions in total)" in
  nl +:+ nl +:+ "User's previous watch reasons " +:+ total +:+ ":```"
     +:+ start_reason d +:+ nl +:+ nl +:+ end_reason d +:+ "```".

Definition summarize (history : list infraction) : M (option digest) :=
  if bool_decide (1 < length history) then
    h0 ← index history 0;
    h1 ← index history 1;
    mret (Some {| episode_count := length history / 2;
                 end_reason := inf_reason h0.2;
                 start_reason := "Watched: " +:+ inf_reason h1.2 |})
  else mret None.

(** ** [BigBrother.apply_watch] *)

Definition msg_only_humans (ctx : Context) : string :=
  ":x: I'm sorry " +:+ ctx_author ctx
    +:+ ", I'm afraid I can't do that. I only watch humans.".

Definition msg_cache_failed (user : FetchedMember) : string :=
  ":x: Updating the user cache failed, can't watch user " +:+ user_str user.

Definition msg_already_watched (user : FetchedMember) : string :=
  ":x: " +:+ user_str user +:+ " is already being watched.".

Definition msg_watching (user : FetchedMember) : string :=
  ":white_check_mark: Messages sent by " +:+ user_str user
    +:+ " will now be relayed to Big Brother.".

Definition msg_post_failed : string :=
  ":x: Failed to post the infraction: response was empty.".

Definition apply_watch (env : Env) (ctx : Context) (user : FetchedMember)
    (reason : string) : M unit :=
  if user_bot user then
    ctx_send ctx (msg_only_humans ctx)
  else
    fetched ← fetch_user_cache env;
    if negb fetched then
      ctx_send ctx (msg_cache_failed user)
    else
      st ← get_state;
      if bool_decide (user_id user ∈ dom (watched_users st)) then
        ctx_send ctx (msg_already_watched user)
      else
        response ← post_infraction env ctx user "watch" reason true true;
        msg ← match response with
              | Some r =>
                  cache_put (user_id user) r;;
                  history ← api_get env
                    {| p_user__id := Some (user_id user); p_active := false;
                       p_type := "watch" |};
                  d ← summarize history;
                  mret (msg_watching user +:+ from_option render "" d)
              | None => mret msg_post_failed
              end;
        ctx_send ctx msg.

(** ** [BigBrother.apply_unwatch] *)

Definition msg_unwatched (user : FetchedMember) : string :=
  ":white_check_mark: Messages sent by " +:+ user_str user
    +:+ " will no longer be relayed.".

Definition msg_not_watched : string :=
  ":x: The specified user is currently not being watched.".

Definition apply_unwatch (env : Env) (ctx : Context) (user : FetchedMember)
    (reason : string) (banned : bool) : M unit :=
  active_watches ← api_get env
    {| p_user__id := Some (user_id user);
       p_active := p_active api_default_params;
       p_type := p_type api_default_params |};
  match active_watches with
  | [] =>
      if negb banned then ctx_send ctx msg_not_watched else mret tt
  | [infraction] =>
      api_patch env (inf_id infraction) false;;
      post_infraction env ctx user "watch" ("Unwatched: " +:+ reason)
        true false;;
      (if negb banned then ctx_send ctx (msg_unwatched user) else mret tt);;
      _remove_user (user_id user)
  | _ => raise ValueError
  end.

(** ** The commands (lines 46 to 61)

    The role check of [with_role] and the conversion of the argument to a
    [FetchedMember] happen before the body runs. *)

Definition watch_command (env : Env) (ctx : Context) (user : FetchedMember)
    (reason : string) : M unit :=
  apply_watch env ctx user reason.

(** [banned] keeps its default, [False]. *)
Definition unwatch_command (env : Env) (ctx : Context) (user : FetchedMember)
    (reason : string) : M unit :=
  apply_unwatch env ctx user reason false.

(** ** Sequences of operations *)

Inductive call :=
  | Watch (env : Env) (ctx : Context) (user : FetchedMember) (reason : string)
  | Unwatch (env : Env) (ctx : Context) (user : FetchedMember)
      (reason : string) (banned : bool).

Definition run_call (st : State) (c : call) : State :=
  match c with
  | Watch env ctx user reason => st_of (apply_watch env ctx user reason st)
  | Unwatch env ctx user reason banned =>
      st_of (apply_unwatch env ctx user reason banned st)
  end.

(** Strictly sequential calls: each runs on the state the one before left,
    whether that one returned or raised. *)
Definition run_calls (cs : list call) (st : State) : State :=
  fold_left run_call cs st.

(** One call with all it gives back: result, state and log. *)
Definition call_out (st : State) (c : call) :
    result unit * State * list event :=
  match c with
  | Watch env ctx user reason => apply_watch env ctx user reason st
  | Unwatch env ctx user reason banned =>
      apply_unwatch env ctx user reason banned st
  end.

(** The user a call is about. *)
Definition call_user (c : call) : nat :=
  match c with
  | Watch _ _ user _ | Unwatch _ _ user _ _ => user_id user
  end.

(** ** Vocabulary of the properties *)

Definition active_params (u : nat) : params :=
  {| p_user__id := Some u; p_active := true; p_type := "watch" |}.

(** The active watch records of subject [s] in the backend. *)
Definition backend_active (db : gmap nat fields) (s : nat) : list infraction :=
  query (active_params s) db.

Definition at_most_one_active (db : gmap nat fields) (s : nat) : Prop :=
  length (backend_active db s) ≤ 1.

(** The cache's entry for [s] is the backend's active watch of [s], and
    there is no entry when the backend has none. *)
Definition cache_agrees (st : State) (s : nat) : Prop :=
  backend_active (backend st) s = option_list (watched_users st !! s).

(** The cache [fetch_user_cache] builds from a backend. *)
Definition refreshed (db : gmap nat fields) : gmap nat infraction :=
  cache_of (query api_default_params db).

(** The messages an operation sent, in order. *)
Definition sent (evs : list event) : list string :=
  omap (λ e, match e with EvSend m => Some m | _ => None end) evs.

(** A negative outcome is a message that starts with the cross mark. *)
Definition negative (msg : string) : Prop := String.prefix ":x:" msg = true.

Definition is_cache_write (e : event) : bool :=
  match e with EvCachePut _ _ | EvCacheRemove _ => true | _ => false end.

(** Every change the operations make to the cache: a put, a removal, or a
    refresh that succeeded. *)
Definition is_cache_event (e : event) : bool :=
  match e with
  | EvCachePut _ _ | EvCacheRemove _ | EvCacheRefresh true => true
  | _ => false
  end.

Definition is_backend_write (e : event) : bool :=
  match e with EvApiPost _ _ | EvApiPatch _ _ _ => true | _ => false end.

(** The kinds of call to the backend, and how often an operation made one. *)
Inductive call_kind := KRefresh | KGet | KPost | KPatch.

Definition kind_of (e : event) : option call_kind :=
  match e with
  | EvCacheRefresh _ => Some KRefresh
  | EvApiGet _ _ => Some KGet
  | EvApiPost _ _ => Some KPost
  | EvApiPatch _ _ _ => Some KPatch
  | _ => None
  end.

Definition is_kind (k : call_kind) (e : event) : bool :=
  match kind_of e, k with
  | Some KRefresh, KRefresh | Some KGet, KGet
  | Some KPost, KPost | Some KPatch, KPatch => true
  | _, _ => false
  end.

Definition calls (k : call_kind) (evs : list event) : nat :=
  length (List.filter (is_kind k) evs).

(** Write-through order of a log, for subject [u] on backend [db]: a cache
    put of a record comes after the create that returned that record, an
    active watch of [u]; a cache removal comes after a patch that succeeded
    in deactivating a record of [u]. *)
Definition put_follows_create (u : nat) (evs : list event) : Prop :=
  ∀ i v r, evs !! i = Some (EvCachePut v r) →
    v = u ∧ ∃ j new, j < i ∧ evs !! j = Some (EvApiPost new (Some r))
                     ∧ new_user new = u ∧ new_active new = true.

Definition remove_follows_patch (db : gmap nat fields) (u : nat)
    (evs : list event) : Prop :=
  ∀ i v, evs !! i = Some (EvCacheRemove v) →
    v = u ∧ ∃ j k f, j < i ∧ evs !! j = Some (EvApiPatch k false true)
                     ∧ db !! k = Some f ∧ inf_user f = u.

(** The guards of [apply_watch] (lines 65 to 75), in the order the code
    tests them; the third is tested on the cache the second has just
    refreshed. *)
Inductive guard := OnlyHumans | CacheFailed | AlreadyWatched.

Definition guard_of (env : Env) (st : State) (user : FetchedMember) :
    option guard :=
  if user_bot user then Some OnlyHumans
  else if negb (fetch_ok env) then Some CacheFailed
  else if bool_decide (user_id user ∈ dom (refreshed (backend st)))
       then Some AlreadyWatched
  else None.

Definition guard_msg (ctx : Context) (user : FetchedMember) (g : guard) :
    string :=
  match g with
  | OnlyHumans => msg_only_humans ctx
  | CacheFailed => msg_cache_failed user
  | AlreadyWatched => msg_already_watched user
  end.

(** The payloads and filters the two operations send. *)
Definition watch_payload (user : FetchedMember) (reason : string) : payload :=
  {| new_user := user_id user; new_type := "watch"; new_reason := reason;
     new_hidden := true; new_active := true |}.

Definition unwatch_payload (user : FetchedMember) (reason : string) : payload :=
  {| new_user := user_id user; new_type := "watch";
     new_reason := "Unwatched: " +:+ reason;
     new_hidden := true; new_active := false |}.

Definition history_params (u : nat) : params :=
  {| p_user__id := Some u; p_active := false; p_type := "watch" |}.

Definition store (r : infraction) (db : gmap nat fields) : gmap nat fields :=
  <[r.1 := r.2]> db.

(** The digest as a function of the history alone. *)
Definition digest_of (history : list infraction) : option digest :=
  match history with
  | h0 :: h1 :: _ =>
      Some {| episode_count := length history / 2;
              end_reason := inf_reason h0.2;
              start_reason := "Watched: " +:+ inf_reason h1.2 |}
  | _ => None
  end.

(** ** Concrete inputs *)

Definition empty_state : State := mkState ∅ ∅.

(** The process has just started: the backend holds an active watch of
    user 7, the cache is still empty. *)
Definition cold_start : State :=
  mkState
    {[ 1 := {| inf_user := 7; inf_active := true; inf_type := "watch";
               inf_reason := "spam"; inf_hidden := true;
               inf_inserted_at := 1 |} ]}
    ∅.

(** The watch of user 7 was closed behind the cog's back: the backend holds
    it as inactive, the cache still has the entry. *)
Definition stale_entry : State :=
  mkState
    {[ 1 := {| inf_user := 7; inf_active := false; inf_type := "watch";
               inf_reason := "spam"; inf_hidden := true;
               inf_inserted_at := 1 |} ]}
    {[ 7 := (1, {| inf_user := 7; inf_active := true; inf_type := "watch";
                   inf_reason := "spam"; inf_hidden := true;
                   inf_inserted_at := 1 |}) ]}.

(** Two active watches of user 7: what two interleaved [apply_watch] calls
    can leave behind. *)
Definition watched_twice : State :=
  mkState
    {[ 1 := {| inf_user := 7; inf_active := true; inf_type := "watch";
               inf_reason := "spam"; inf_hidden := true;
               inf_inserted_at := 1 |};
       2 := {| inf_user := 7; inf_active := true; inf_type := "watch";
               inf_reason := "spam too"; inf_hidden := true;
               inf_inserted_at := 2 |} ]}
    ∅.

Definition backend_up : Env := mkEnv true true true true.
Definition backend_down : Env := mkEnv false false false false.
Definition alice : FetchedMember := Member 7 false "alice#1234".
Definition moderator : Context := Ctx "mod#0001".

Definition bob : FetchedMember := Member 8 false "bob#5678".

(** Users 7 and 8 watched, and the cache in step with the backend. *)
Definition two_watched : State :=
  run_calls [Watch backend_up moderator alice "spam";
             Watch backend_up moderator bob "flood"] empty_state.

Definition alice_calls : list call :=
  [Watch backend_up moderator alice "spam";
   Watch backend_up moderator alice "spam again";
   Unwatch backend_up moderator alice "calmed down" false;
   Unwatch backend_up moderator alice "twice" true;
   Watch backend_up moderator alice "relapse"].

(** User 7 watched through [apply_watch], and the record that made. *)
Definition alice_watched : State :=
  run_calls [Watch backend_up moderator alice "spam"] empty_state.

Definition alice_record : infraction :=
  (1, {| inf_user := 7; inf_active := true; inf_type := "watch";
         inf_reason := "spam"; inf_hidden := true; inf_inserted_at := 1 |}).

(** The backend answers queries and refuses the patch, or the create. *)
Definition patch_down : Env := mkEnv true true true false.
Definition post_down : Env := mkEnv true false true true.

(** ** Tactics *)

(** Unfold one run of an operation. *)
Ltac run :=
  cbv beta iota zeta delta
    [apply_watch apply_unwatch mbind M_bind bind mret M_ret ret emit raise
     get_state put_state ctx_send api_get api_patch post_infraction
     fetch_user_cache _remove_user cache_put index summarize
     res st_of evs_of];
  simpl.

(** Membership and positions in a concrete log. *)
Ltac not_in_log :=
  let H := fresh in
  simpl; intros H;
  repeat (apply elem_of_cons in H as [H|H]; [discriminate H|]);
  by apply not_elem_of_nil in H.

Ltac at_index i :=
  intros;
  repeat (destruct i as [|i]; simpl in *; simplify_eq; try done).

(** ** The infraction store: queries after writes *)

Section store.
Implicit Types (db : gmap nat fields) (r : infraction) (p : params).

Lemma query_Permutation p db :
  query p db ≡ₚ filter (λ r, matches p r = true) (map_to_list db).
Proof. apply merge_sort_Permutation. Qed.

Lemma elem_of_query p db r :
  r ∈ query p db ↔ db !! r.1 = Some r.2 ∧ matches p r = true.
Proof.
  rewrite query_Permutation, list_elem_of_filter.
  destruct r as [i f]. rewrite elem_of_map_to_list. simpl. tauto.
Qed.

Lemma NoDup_query p db : NoDup (query p db).
Proof.
  rewrite query_Permutation. apply NoDup_filter, NoDup_map_to_list.
Qed.

Lemma query_same_elements p db db' :
  (∀ r, r ∈ query p db ↔ r ∈ query p db') → query p db ≡ₚ query p db'.
Proof. intros. apply NoDup_Permutation; auto using NoDup_query. Qed.

Lemma fresh_id_fresh db : db !! fresh_id db = None.
Proof.
  destruct (db !! fresh_id db) as [f|] eqn:E; [|done].
  assert (fresh_id db ∈ (map_to_list db).*1) as Hin.
  { apply list_elem_of_fmap. exists (fresh_id db, f). split; [done|].
    by apply elem_of_map_to_list. }
  apply max_list_elem_of_le in Hin. unfold fresh_id in Hin at 1. lia.
Qed.

Lemma query_insert_fresh p db i f :
  db !! i = None →
  query p (<[i:=f]> db)
    ≡ₚ (if matches p (i, f) then [(i, f)] else []) ++ query p db.
Proof.
  intros Hi. rewrite !query_Permutation, map_to_list_insert by done.
  rewrite filter_cons. destruct (matches p (i, f)); by case_decide.
Qed.

(** Deactivating record [i] removes it from the active records and leaves
    everything else where it was. *)
Lemma elem_of_query_patch u db i r :
  r ∈ query (active_params u) (patch i false db)
  ↔ r ∈ query (active_params u) db ∧ r.1 ≠ i.
Proof.
  rewrite !elem_of_query. unfold patch. destruct r as [j f]. simpl.
  destruct (decide (i = j)) as [->|Hne].
  - rewrite lookup_alter_eq. split; [|tauto].
    intros [Hf Hm]. destruct (db !! j) as [f0|]; simplify_eq/=.
    unfold matches in Hm. simpl in Hm.
    rewrite !andb_true_iff, !bool_decide_eq_true in Hm.
    destruct Hm as [[_ Hm] _]. done.
  - rewrite lookup_alter_ne by done. intuition congruence.
Qed.

Lemma matches_active u r :
  matches (active_params u) r = true
  ↔ inf_user r.2 = u ∧ inf_active r.2 = true ∧ inf_type r.2 = "watch".
Proof.
  unfold matches. simpl.
  rewrite !andb_true_iff, !bool_decide_eq_true. tauto.
Qed.

Lemma matches_default r :
  matches api_default_params r = true
  ↔ inf_active r.2 = true ∧ inf_type r.2 = "watch".
Proof.
  unfold matches. simpl.
  rewrite !andb_true_iff, !bool_decide_eq_true. tauto.
Qed.

Lemma elem_of_backend_active db s r :
  r ∈ backend_active db s
  ↔ r ∈ query api_default_params db ∧ inf_user r.2 = s.
Proof.
  unfold backend_active.
  rewrite !elem_of_query, matches_active, matches_default. tauto.
Qed.
End store.

(** ** Running the operations *)

Section unwatch.
Variables (env : Env) (ctx : Context) (user : FetchedMember)
  (reason : string) (banned : bool) (st : State).

(** The paths of [apply_unwatch], by the answer to the query of line 105
    and to the patch of line 116. *)
Lemma unwatch_get_failed :
  get_ok env = false →
  apply_unwatch env ctx user reason banned st
  = (Raise ResponseCodeError, st,
     [EvApiGet (active_params (user_id user)) false]).
Proof. intros E. run. by rewrite E. Qed.

Lemma unwatch_none :
  get_ok env = true → backend_active (backend st) (user_id user) = [] →
  apply_unwatch env ctx user reason banned st
  = (Ok tt, st,
     EvApiGet (active_params (user_id user)) true
       :: (if banned then [] else [EvSend msg_not_watched])).
Proof.
  intros E Hq. unfold backend_active, active_params in Hq.
  run. rewrite E. simpl. rewrite Hq. by destruct banned.
Qed.

Lemma unwatch_many :
  get_ok env = true →
  1 < length (backend_active (backend st) (user_id user)) →
  apply_unwatch env ctx user reason banned st
  = (Raise ValueError, st, [EvApiGet (active_params (user_id user)) true]).
Proof.
  intros E Hq. unfold backend_active, active_params in Hq.
  run. rewrite E. simpl.
  destruct (query _ _) as [|r1 [|r2 l]]; simpl in *; by try lia.
Qed.

Lemma unwatch_patch_failed r :
  get_ok env = true → backend_active (backend st) (user_id user) = [r] →
  patch_ok env = false →
  apply_unwatch env ctx user reason banned st
  = (Raise ResponseCodeError, st,
     [EvApiGet (active_params (user_id user)) true;
      EvApiPatch (inf_id r) false false]).
Proof.
  intros E Hq Ep. unfold backend_active, active_params in Hq.
  run. rewrite E. simpl. rewrite Hq. simpl. by rewrite Ep.
Qed.

Lemma unwatch_one r :
  get_ok env = true → backend_active (backend st) (user_id user) = [r] →
  patch_ok env = true →
  let db1 := patch (inf_id r) false (backend st) in
  let closing := create (unwatch_payload user reason) db1 in
  apply_unwatch env ctx user reason banned st
  = (Ok tt,
     mkState (if post_ok env then store closing db1 else db1)
             (delete (user_id user) (watched_users st)),
     [EvApiGet (active_params (user_id user)) true;
      EvApiPatch (inf_id r) false true;
      EvApiPost (unwatch_payload user reason)
        (if post_ok env then Some closing else None)]
     ++ (if banned then [] else [EvSend (msg_unwatched user)])
     ++ [EvCacheRemove (user_id user)]).
Proof.
  intros E Hq Ep. unfold backend_active, active_params in Hq.
  run. rewrite E. simpl. rewrite Hq. simpl. rewrite Ep. simpl.
  by destruct (post_ok env), banned.
Qed.
End unwatch.

(** The digest never raises: the length test guards both lookups. *)
Lemma summarize_total history st :
  summarize history st = (Ok (digest_of history), st, []).
Proof.
  unfold summarize. case_bool_decide as Hlen.
  - destruct history as [|h0 [|h1 l]]; simpl in Hlen; try lia. by run.
  - destruct history as [|h0 [|h1 l]]; simpl in Hlen; try lia; by run.
Qed.

Section watch.
Variables (env : Env) (ctx : Context) (user : FetchedMember)
  (reason : string) (st : State).

(** The paths of [apply_watch]: a guard, an empty create, a create. *)
Lemma watch_guard g :
  guard_of env st user = Some g →
  apply_watch env ctx user reason st
  = match g with
    | OnlyHumans => (Ok tt, st, [EvSend (msg_only_humans ctx)])
    | CacheFailed =>
        (Ok tt, st, [EvCacheRefresh false; EvSend (msg_cache_failed user)])
    | AlreadyWatched =>
        (Ok tt, mkState (backend st) (refreshed (backend st)),
         [EvCacheRefresh true; EvSend (msg_already_watched user)])
    end.
Proof.
  unfold guard_of, refreshed. run.
  destruct (user_bot user); [by intros [= <-]|].
  destruct (fetch_ok env); simpl; [|by intros [= <-]].
  case_bool_decide; [by intros [= <-]|done].
Qed.

Lemma watch_post_failed :
  guard_of env st user = None → post_ok env = false →
  apply_watch env ctx user reason st
  = (Ok tt, mkState (backend st) (refreshed (backend st)),
     [EvCacheRefresh true; EvApiPost (watch_payload user reason) None;
      EvSend msg_post_failed]).
Proof.
  unfold guard_of, refreshed. run.
  destruct (user_bot user); [done|].
  destruct (fetch_ok env); simpl; [|done].
  case_bool_decide; [done|]. intros _ ->. done.
Qed.

Lemma watch_created :
  guard_of env st user = None → post_ok env = true →
  let r := create (watch_payload user reason) (backend st) in
  let st' := mkState (store r (backend st))
                     (<[user_id user := r]> (refreshed (backend st))) in
  let history := query (history_params (user_id user)) (store r (backend st)) in
  let evs := [EvCacheRefresh true;
              EvApiPost (watch_payload user reason) (Some r);
              EvCachePut (user_id user) r;
              EvApiGet (history_params (user_id user)) (get_ok env)] in
  apply_watch env ctx user reason st
  = if get_ok env
    then (Ok tt, st',
          evs ++ [EvSend (msg_watching user
                          +:+ from_option render "" (digest_of history))])
    else (Raise ResponseCodeError, st', evs).
Proof.
  unfold guard_of, refreshed.
  unfold apply_watch.
  destruct (user_bot user); [done|].
  cbv beta iota zeta delta
    [mbind M_bind bind mret M_ret ret emit raise get_state put_state
     ctx_send api_get post_infraction fetch_user_cache cache_put].
  destruct (fetch_ok env); simpl; [|done].
  case_bool_decide; [done|]. intros _ ->. simpl.
  destruct (get_ok env); simpl; [|done].
  by rewrite summarize_total.
Qed.
End watch.

(** ** The cache built by a refresh *)

Section refresh.
Implicit Types (db : gmap nat fields) (l : list infraction)
  (m : gmap nat infraction).

Lemma fold_cache_lookup l m s r :
  fold_left (λ m r, <[inf_user r.2 := r]> m) l m !! s = Some r →
  (r ∈ l ∧ inf_user r.2 = s) ∨ m !! s = Some r.
Proof.
  revert m. induction l as [|x l IH]; intros m; simpl; [by right|].
  intros [[? ?]|Hm]%IH.
  - left. split; [by right|done].
  - destruct (decide (inf_user x.2 = s)) as [<-|Hne].
    + rewrite lookup_insert_eq in Hm. simplify_eq. left. split; [left|done].
    + rewrite lookup_insert_ne in Hm by done. by right.
Qed.

Lemma fold_cache_is_Some l m s :
  is_Some (m !! s) ∨ (∃ r, r ∈ l ∧ inf_user r.2 = s) →
  is_Some (fold_left (λ m r, <[inf_user r.2 := r]> m) l m !! s).
Proof.
  revert m. induction l as [|x l IH]; intros m; simpl.
  - intros [?|(r & Hr & _)]; [done|]. by apply not_elem_of_nil in Hr.
  - intros H. apply IH.
    destruct (decide (inf_user x.2 = s)) as [<-|Hne].
    + left. rewrite lookup_insert_eq. by eexists.
    + rewrite lookup_insert_ne by done.
      destruct H as [?|(r & Hr & Hs)]; [by left|].
      apply elem_of_cons in Hr as [->|Hr]; [done|]. right. eauto.
Qed.

Lemma refreshed_lookup db s r :
  refreshed db !! s = Some r → r ∈ backend_active db s.
Proof.
  intros [[? ?]|Hm]%fold_cache_lookup.
  - by apply elem_of_backend_active.
  - by rewrite lookup_empty in Hm.
Qed.

Lemma refreshed_None db s :
  refreshed db !! s = None → backend_active db s = [].
Proof.
  intros Hn. destruct (backend_active db s) as [|r l] eqn:E; [done|].
  assert (r ∈ backend_active db s) as Hr by (rewrite E; left).
  apply elem_of_backend_active in Hr as [Hr Hs].
  assert (is_Some (refreshed db !! s)) as [? ?]; [|congruence].
  apply fold_cache_is_Some. right. eauto.
Qed.

Lemma refreshed_agrees db s :
  at_most_one_active db s → cache_agrees (mkState db (refreshed db)) s.
Proof.
  unfold at_most_one_active, cache_agrees. simpl. intros Hlen.
  destruct (refreshed db !! s) as [r|] eqn:E; simpl.
  - apply refreshed_lookup in E.
    destruct (backend_active db s) as [|x [|y l]]; simpl in *; try lia.
    + by apply not_elem_of_nil in E.
    + apply list_elem_of_singleton in E. by subst.
  - by apply refreshed_None.
Qed.
End refresh.

(** ** Active watches after the writes of the two operations *)

Section writes.
Implicit Types (db : gmap nat fields) (r : infraction).

Lemma backend_active_store db new s :
  backend_active (store (create new db) db) s
    ≡ₚ (if matches (active_params s) (create new db)
        then [create new db] else [])
       ++ backend_active db s.
Proof. apply query_insert_fresh, fresh_id_fresh. Qed.

Lemma backend_active_store_inactive db new s :
  new_active new = false →
  backend_active (store (create new db) db) s ≡ₚ backend_active db s.
Proof.
  intros Hn. rewrite backend_active_store.
  destruct (matches _ _) eqn:E; [|done].
  apply matches_active in E. simpl in E. intuition congruence.
Qed.

Lemma backend_active_store_other db new s :
  new_user new ≠ s →
  backend_active (store (create new db) db) s ≡ₚ backend_active db s.
Proof.
  intros Hn. rewrite backend_active_store.
  destruct (matches _ _) eqn:E; [|done].
  apply matches_active in E. simpl in E. intuition congruence.
Qed.

Lemma backend_active_store_watch db user reason :
  backend_active db (user_id user) = [] →
  backend_active (store (create (watch_payload user reason) db) db)
    (user_id user)
  = [create (watch_payload user reason) db].
Proof.
  intros Hq. apply Permutation_singleton_r.
  rewrite backend_active_store, Hq.
  destruct (matches _ _) eqn:E; [done|].
  apply not_true_iff_false in E. destruct E. by apply matches_active.
Qed.

(** The patched record was the only active watch of its subject. *)
Lemma backend_active_patch_same db u r :
  backend_active db u = [r] →
  backend_active (patch (inf_id r) false db) u = [].
Proof.
  intros Hq.
  destruct (backend_active (patch _ _ _) u) as [|x l] eqn:E; [done|].
  assert (x ∈ backend_active (patch (inf_id r) false db) u) as Hx
    by (rewrite E; left).
  apply elem_of_query_patch in Hx as [Hx Hne]. fold (backend_active db u) in Hx.
  rewrite Hq in Hx. apply list_elem_of_singleton in Hx. by subst.
Qed.

Lemma backend_active_patch_other db u s r :
  r ∈ backend_active db u → u ≠ s →
  backend_active (patch (inf_id r) false db) s ≡ₚ backend_active db s.
Proof.
  intros Hr Hne. apply query_same_elements. intros x.
  rewrite elem_of_query_patch. split; [tauto|]. intros Hx. split; [done|].
  apply elem_of_query in Hr as [Hr1 Hr2], Hx as [Hx1 Hx2].
  apply matches_active in Hr2, Hx2. unfold inf_id. intros Heq.
  rewrite Heq in Hx1. intuition congruence.
Qed.

Lemma backend_active_patch_length db i s :
  length (backend_active (patch i false db) s) ≤ length (backend_active db s).
Proof.
  apply submseteq_length, NoDup_submseteq; [apply NoDup_query|].
  intros x Hx. by apply elem_of_query_patch in Hx as [? _].
Qed.
End writes.

(** ** One active watch per subject, and a cache that mirrors it *)

Section invariant.
Variable s : nat.

Lemma agrees_transfer st st' :
  backend_active (backend st') s ≡ₚ backend_active (backend st) s →
  watched_users st' !! s = watched_users st !! s →
  cache_agrees st s → cache_agrees st' s.
Proof.
  unfold cache_agrees. intros Hp -> Hag. rewrite Hag in Hp.
  destruct (watched_users st !! s); simpl in *.
  - by apply Permutation_singleton_r.
  - by apply Permutation_nil_r.
Qed.

Lemma watch_at_most_one env ctx user reason st :
  at_most_one_active (backend st) s →
  at_most_one_active (backend (st_of (apply_watch env ctx user reason st))) s.
Proof.
  intros Hone. destruct (guard_of env st user) as [g|] eqn:Eg.
  { rewrite (watch_guard _ ctx _ reason _ _ Eg). by destruct g. }
  destruct (post_ok env) eqn:Ep.
  2:{ by rewrite (watch_post_failed _ ctx _ reason _ Eg Ep). }
  rewrite (watch_created _ ctx _ reason _ Eg Ep).
  assert (at_most_one_active
            (store (create (watch_payload user reason) (backend st)) (backend st)) s).
  { unfold at_most_one_active.
    destruct (decide (user_id user = s)) as [<-|Hne].
    - rewrite backend_active_store_watch; [done|].
      apply refreshed_None, not_elem_of_dom.
      unfold guard_of in Eg. repeat case_match; try done.
      by case_bool_decide.
    - by rewrite backend_active_store_other. }
  by destruct (get_ok env).
Qed.

Lemma watch_agrees env ctx user reason st :
  at_most_one_active (backend st) s → cache_agrees st s →
  cache_agrees (st_of (apply_watch env ctx user reason st)) s.
Proof.
  intros Hone Hag. destruct (guard_of env st user) as [g|] eqn:Eg.
  { rewrite (watch_guard _ ctx _ reason _ _ Eg).
    destruct g; try done. by apply refreshed_agrees. }
  destruct (post_ok env) eqn:Ep.
  2:{ rewrite (watch_post_failed _ ctx _ reason _ Eg Ep).
      by apply refreshed_agrees. }
  rewrite (watch_created _ ctx _ reason _ Eg Ep).
  set (r := create (watch_payload user reason) (backend st)).
  assert (cache_agrees
            (mkState (store r (backend st))
               (<[user_id user := r]> (refreshed (backend st)))) s).
  { destruct (decide (user_id user = s)) as [<-|Hne].
    - unfold cache_agrees. simpl. rewrite lookup_insert_eq. simpl.
      apply backend_active_store_watch, refreshed_None, not_elem_of_dom.
      unfold guard_of in Eg. repeat case_match; try done.
      by case_bool_decide.
    - apply (agrees_transfer (mkState (backend st) (refreshed (backend st)))).
      + by apply backend_active_store_other.
      + simpl. by rewrite lookup_insert_ne.
      + by apply refreshed_agrees. }
  by destruct (get_ok env).
Qed.

Lemma unwatch_at_most_one env ctx user reason banned st :
  at_most_one_active (backend st) s →
  at_most_one_active
    (backend (st_of (apply_unwatch env ctx user reason banned st))) s.
Proof.
  intros Hone. destruct (get_ok env) eqn:Eg.
  2:{ by rewrite (unwatch_get_failed _ ctx _ reason banned _ Eg). }
  destruct (backend_active (backend st) (user_id user)) as [|r [|r2 l]] eqn:Eq.
  - by rewrite (unwatch_none _ ctx _ reason banned _ Eg Eq).
  - destruct (patch_ok env) eqn:Ep.
    2:{ by rewrite (unwatch_patch_failed _ ctx _ reason banned _ _ Eg Eq Ep). }
    rewrite (unwatch_one _ ctx _ reason banned _ _ Eg Eq Ep). simpl.
    unfold at_most_one_active in *.
    pose proof (backend_active_patch_length (backend st) (inf_id r) s).
    destruct (post_ok env); [|lia].
    rewrite backend_active_store_inactive by done. lia.
  - rewrite (unwatch_many _ ctx _ reason banned _ Eg); [done|].
    rewrite Eq. simpl. lia.
Qed.

Lemma unwatch_agrees env ctx user reason banned st :
  cache_agrees st s →
  cache_agrees (st_of (apply_unwatch env ctx user reason banned st)) s.
Proof.
  intros Hag. destruct (get_ok env) eqn:Eg.
  2:{ by rewrite (unwatch_get_failed _ ctx _ reason banned _ Eg). }
  destruct (backend_active (backend st) (user_id user)) as [|r [|r2 l]] eqn:Eq.
  - by rewrite (unwatch_none _ ctx _ reason banned _ Eg Eq).
  - destruct (patch_ok env) eqn:Ep.
    2:{ by rewrite (unwatch_patch_failed _ ctx _ reason banned _ _ Eg Eq Ep). }
    rewrite (unwatch_one _ ctx _ reason banned _ _ Eg Eq Ep). simpl.
    set (db1 := patch (inf_id r) false (backend st)).
    set (db2 := if post_ok env then _ else _).
    assert (∀ x, backend_active db2 x ≡ₚ backend_active db1 x) as Hdb2.
    { intros x. subst db2. destruct (post_ok env); [|done].
      by apply backend_active_store_inactive. }
    destruct (decide (user_id user = s)) as [<-|Hne].
    + unfold cache_agrees. simpl. rewrite lookup_delete_eq. simpl.
      apply Permutation_nil_r. rewrite Hdb2.
      subst db1. by rewrite backend_active_patch_same.
    + apply (agrees_transfer st); [|by simpl; rewrite lookup_delete_ne|done].
      simpl. rewrite Hdb2. apply (backend_active_patch_other _ (user_id user)); [|done].
      rewrite Eq. left.
  - rewrite (unwatch_many _ ctx _ reason banned _ Eg); [done|].
    rewrite Eq. simpl. lia.
Qed.

Lemma run_call_at_most_one st c :
  at_most_one_active (backend st) s →
  at_most_one_active (backend (run_call st c)) s.
Proof.
  destruct c; simpl; auto using watch_at_most_one, unwatch_at_most_one.
Qed.

Lemma run_call_agrees st c :
  at_most_one_active (backend st) s → cache_agrees st s →
  cache_agrees (run_call st c) s.
Proof.
  destruct c; simpl; auto using watch_agrees, unwatch_agrees.
Qed.
End invariant.

(** ** A watch, an unwatch and a second watch *)

Example rewatch_reports_history :
  sent (evs_of (apply_watch backend_up moderator alice "again"
                  (run_calls
                     [Watch backend_up moderator alice "spam";
                      Unwatch backend_up moderator alice "ok now" false]
                     empty_state)))
  = [msg_watching alice
     +:+ render {| episode_count := 1; end_reason := "Unwatched: ok now";
                   start_reason := "Watched: spam" |}].
Proof. by vm_compute. Qed.

(** ** Sequential use keeps one active watch per subject *)

(** C1, as stated, fails on the cache. From a backend with one active watch
    of user 7 and a cache not loaded yet, an [apply_watch] whose cache
    refresh fails changes nothing, and the cache still lacks the entry the
    backend has. From a backend with no active watch of user 7 and a cache
    that still has an entry for 7, an [apply_unwatch] of user 7 finds
    nothing to close and leaves the entry where it is. *)
Lemma stale_cache_stays_stale :
  (at_most_one_active (backend cold_start) 7
   ∧ ¬ cache_agrees
         (run_calls [Watch backend_down moderator alice "spam"] cold_start) 7)
  ∧ (at_most_one_active (backend stale_entry) 7
     ∧ ¬ cache_agrees
           (run_calls [Unwatch backend_up moderator alice "calmed down" false]
              stale_entry) 7).
Proof.
  unfold at_most_one_active, cache_agrees. repeat split.
  - vm_compute. lia.
  - vm_compute. discriminate.
  - vm_compute. lia.
  - vm_compute. discriminate.
Qed.

(** C1, amended: for any subject [s] and any finite sequence of strictly
    sequential [apply_watch]/[apply_unwatch] calls (on any subjects, with
    any backend failures) from a backend with at most one active watch
    record of [s], the backend ends with at most one active watch record of
    [s]; and if the cache's entry for [s] agreed with the backend's active
    records of [s] at the start, it agrees at the end. *)
Theorem sequential_calls_keep_one_active_watch (s : nat) (cs : list call)
    (st : State) :
  at_most_one_active (backend st) s →
  at_most_one_active (backend (run_calls cs st)) s
  ∧ (cache_agrees st s → cache_agrees (run_calls cs st) s).
Proof.
  revert st. induction cs as [|c cs IH]; intros st Hone; [done|].
  simpl. pose proof (run_call_at_most_one s st c Hone) as Hone'.
  destruct (IH _ Hone') as [H1 H2]. split; [done|].
  intros Hag. by apply H2, run_call_agrees.
Qed.

Lemma sequential_calls_keep_one_active_watch_witness :
  at_most_one_active (backend (run_calls alice_calls empty_state)) 7
  ∧ cache_agrees (run_calls alice_calls empty_state) 7.
Proof.
  assert (at_most_one_active (backend empty_state) 7) as Hone.
  { unfold at_most_one_active. vm_compute. lia. }
  destruct (sequential_calls_keep_one_active_watch 7 alice_calls empty_state Hone)
    as [H1 H2].
  split; [exact H1|]. apply H2. reflexivity.
Defined.

(** ** Rejection by a guard of [apply_watch] *)

(** C2, as stated, fails: with the backend holding an active watch of user 7
    and a cache not loaded yet, [apply_watch] rejects user 7 as already
    watched, and the cache it leaves is the refreshed one, not the one it
    found. *)
Lemma already_watched_guard_keeps_refreshed_cache :
  guard_of backend_up cold_start alice = Some AlreadyWatched
  ∧ sent (evs_of (apply_watch backend_up moderator alice "spam" cold_start))
    = [msg_already_watched alice]
  ∧ watched_users (st_of (apply_watch backend_up moderator alice "spam" cold_start))
    ≠ watched_users cold_start.
Proof.
  split; [by vm_compute|]. split; [by vm_compute|].
  intros Heq.
  assert (watched_users
            (st_of (apply_watch backend_up moderator alice "spam" cold_start))
          !! 7 = watched_users cold_start !! 7) as Hl by (by rewrite Heq).
  vm_compute in Hl. discriminate.
Qed.

(** C2, amended: whenever [apply_watch] rejects a request by one of its
    three guards, it returns with one negative message, makes no backend
    write and leaves the backend as it was; the cache is as it was when the
    subject is a bot or the refresh fails, and when the subject is already
    watched the cache is the one the refresh of the second guard has just
    loaded from the backend. *)
Theorem watch_guard_rejection (env : Env) (ctx : Context)
    (user : FetchedMember) (reason : string) (st : State) (g : guard) :
  guard_of env st user = Some g →
  let out := apply_watch env ctx user reason st in
  res out = Ok tt
  ∧ sent (evs_of out) = [guard_msg ctx user g]
  ∧ negative (guard_msg ctx user g)
  ∧ Forall (λ e, is_backend_write e = false) (evs_of out)
  ∧ backend (st_of out) = backend st
  ∧ watched_users (st_of out)
    = match g with
      | AlreadyWatched => refreshed (backend st)
      | _ => watched_users st
      end.
Proof.
  intros Hg out. subst out. rewrite (watch_guard _ ctx _ reason _ _ Hg).
  destruct g; simpl; repeat split; by repeat constructor.
Qed.

Lemma watch_guard_rejection_witness :
  sent (evs_of (apply_watch backend_up moderator alice "spam" cold_start))
  = [msg_already_watched alice]
  ∧ watched_users (st_of (apply_watch backend_up moderator alice "spam" cold_start))
    = refreshed (backend cold_start).
Proof.
  assert (guard_of backend_up cold_start alice = Some AlreadyWatched) as Hg
    by (by vm_compute).
  destruct (watch_guard_rejection backend_up moderator alice "spam" cold_start
              AlreadyWatched Hg) as (_ & Hs & _ & _ & _ & Hc).
  split; [exact Hs|exact Hc].
Defined.

(** ** An empty create *)

(** C3: when all guards of [apply_watch] pass and the create returns
    nothing, the operation returns with the generic failure message and
    writes nothing to the cache: the cache is the one it had when the create
    was attempted (after the refresh), entry for entry, and the backend is
    as it was. *)
Theorem watch_empty_create (env : Env) (ctx : Context) (user : FetchedMember)
    (reason : string) (st : State) :
  guard_of env st user = None →
  post_ok env = false →
  let out := apply_watch env ctx user reason st in
  let before_create := st_of (fetch_user_cache env st) in
  res out = Ok tt
  ∧ sent (evs_of out) = [msg_post_failed]
  ∧ negative msg_post_failed
  ∧ Forall (λ e, is_cache_write e = false) (evs_of out)
  ∧ watched_users (st_of out) = watched_users before_create
  ∧ (∀ s, s ∈ dom (watched_users (st_of out))
          ↔ s ∈ dom (watched_users before_create))
  ∧ backend (st_of out) = backend st.
Proof.
  intros Hg Hp out before. subst out before.
  rewrite (watch_post_failed _ ctx _ reason _ Hg Hp).
  assert (fetch_ok env = true) as Hf.
  { unfold guard_of in Hg. destruct (user_bot user); [done|].
    by destruct (fetch_ok env). }
  unfold fetch_user_cache. run. rewrite Hf. simpl.
  repeat split; try done. by repeat constructor.
Qed.

Lemma watch_empty_create_witness :
  sent (evs_of (apply_watch (mkEnv true false true true) moderator alice "spam"
                  empty_state))
  = [msg_post_failed]
  ∧ watched_users
      (st_of (apply_watch (mkEnv true false true true) moderator alice "spam"
                empty_state))
    = watched_users (st_of (fetch_user_cache (mkEnv true false true true) empty_state)).
Proof.
  assert (guard_of (mkEnv true false true true) empty_state alice = None) as Hg
    by (by vm_compute).
  destruct (watch_empty_create (mkEnv true false true true) moderator alice
              "spam" empty_state Hg eq_refl) as (_ & Hs & _ & _ & Hc & _).
  split; [exact Hs|exact Hc].
Defined.

(** ** The history digest *)

(** C4: the history digest is produced exactly when the history has more
    than one entry; it then reports [len(history) // 2] episodes, the reason
    of [history[0]] as closing reason and ["Watched: "] followed by the
    reason of [history[1]] as opening reason; it never raises.  For the
    history with reasons "spam" and "test watch" it reports 1, "spam" and
    "Watched: test watch". *)
Theorem history_digest (history : list infraction) (st : State) :
  (∃ d, summarize history st = (Ok d, st, [])
        ∧ (is_Some d ↔ 1 < length history)
        ∧ (d = None ↔ length history ≤ 1)
        ∧ ∀ x, d = Some x →
            episode_count x = length history `div` 2
            ∧ Some (end_reason x) = (λ h, inf_reason h.2) <$> history !! 0
            ∧ Some (start_reason x)
              = (λ h, "Watched: " +:+ inf_reason h.2) <$> history !! 1)
  ∧ ∀ i j f g,
      inf_reason f = "spam" → inf_reason g = "test watch" →
      summarize [(i, f); (j, g)] st
      = (Ok (Some {| episode_count := 1; end_reason := "spam";
                     start_reason := "Watched: test watch" |}), st, [])
      ∧ render {| episode_count := 1; end_reason := "spam";
                  start_reason := "Watched: test watch" |}
        = nl +:+ nl
          +:+ "User's previous watch reasons (1 previous infractions in total):```Watched: test watch"
          +:+ nl +:+ nl +:+ "spam```".
Proof.
  split.
  - exists (digest_of history). split; [apply summarize_total|].
    destruct history as [|h0 [|h1 l]].
    + simpl. repeat split; try done; lia.
    + simpl. repeat split; try done; lia.
    + unfold digest_of. split; [|split].
      * split; [simpl; lia|by eexists].
      * split; [done|simpl; lia].
      * by intros x [= <-].
  - intros i j f g Hf Hg. rewrite summarize_total. simpl. by rewrite Hf, Hg.
Qed.

(** ** Unwatching a watched user *)

(** C5, as stated, fails: with exactly one active watch record of user 7,
    an [apply_unwatch] whose patch the backend refuses raises at line 116:
    the record stays active, the user stays in the cache and nothing is
    sent; and one whose closing create comes back empty leaves the backend
    with the patched record alone, no closing record. *)
Lemma unwatch_needs_the_backend_writes :
  backend_active (backend alice_watched) 7 = [alice_record]
  ∧ (res (apply_unwatch patch_down moderator alice "calmed down" false
            alice_watched)
     = Raise ResponseCodeError
     ∧ st_of (apply_unwatch patch_down moderator alice "calmed down" false
                alice_watched)
       = alice_watched
     ∧ watched_users alice_watched !! 7 = Some alice_record
     ∧ sent (evs_of (apply_unwatch patch_down moderator alice "calmed down"
                       false alice_watched))
       = [])
  ∧ (res (apply_unwatch post_down moderator alice "calmed down" false
            alice_watched)
     = Ok tt
     ∧ backend (st_of (apply_unwatch post_down moderator alice "calmed down"
                         false alice_watched))
       = patch 1 false (backend alice_watched)
     ∧ size (backend (st_of (apply_unwatch post_down moderator alice
                               "calmed down" false alice_watched)))
       = 1).
Proof. by vm_compute. Qed.

(** C5, amended: whenever the query of [apply_unwatch] returns exactly one
    active watch record of the subject and the backend carries out the patch
    and the create that follow, the operation patches that record to
    inactive, creates a closing record with [active] false and reason
    ["Unwatched: "] followed by the reason, removes the subject from the
    cache, and sends the success message unless [banned]. *)
Theorem unwatch_single_active (env : Env) (ctx : Context)
    (user : FetchedMember) (reason : string) (banned : bool) (st : State)
    (r : infraction) :
  get_ok env = true →
  backend_active (backend st) (user_id user) = [r] →
  patch_ok env = true →
  post_ok env = true →
  let out := apply_unwatch env ctx user reason banned st in
  let patched := patch (inf_id r) false (backend st) in
  let closing := create (unwatch_payload user reason) patched in
  res out = Ok tt
  ∧ backend (st_of out) = store closing patched
  ∧ backend (st_of out) !! inf_id r = Some (set_active false r.2)
  ∧ backend (st_of out) !! inf_id closing = Some closing.2
  ∧ inf_user closing.2 = user_id user
  ∧ inf_active closing.2 = false
  ∧ inf_reason closing.2 = "Unwatched: " +:+ reason
  ∧ backend_active (backend (st_of out)) (user_id user) = []
  ∧ watched_users (st_of out) = delete (user_id user) (watched_users st)
  ∧ (user_id user ∉ dom (watched_users (st_of out)))
  ∧ sent (evs_of out) = (if banned then [] else [msg_unwatched user]).
Proof.
  intros Eg Eq Ep Epost out patched closing. subst out.
  rewrite (unwatch_one _ ctx _ reason banned _ _ Eg Eq Ep), Epost. simpl.
  fold patched. fold closing.
  assert (r ∈ backend_active (backend st) (user_id user)) as Hr
    by (rewrite Eq; left).
  apply elem_of_query in Hr as [Hr _].
  assert (patched !! inf_id r = Some (set_active false r.2)) as Hp.
  { subst patched. unfold patch, inf_id. by rewrite lookup_alter_eq, Hr. }
  assert (patched !! inf_id closing = None) as Hfresh
    by apply fresh_id_fresh.
  repeat split; try done.
  - unfold store. rewrite lookup_insert_ne; [done|]. intros Heq.
    unfold inf_id in *. rewrite Heq in Hfresh. congruence.
  - unfold store. apply lookup_insert_eq.
  - apply Permutation_nil_r. subst closing.
    rewrite backend_active_store_inactive by done.
    subst patched. by rewrite backend_active_patch_same.
  - apply not_elem_of_dom, lookup_delete_eq.
  - by destruct banned.
Qed.

Lemma unwatch_single_active_witness :
  watched_users
    (st_of (apply_unwatch backend_up moderator alice "calmed down" false
              (run_calls [Watch backend_up moderator alice "spam"] empty_state)))
    !! 7 = None
  ∧ sent (evs_of (apply_unwatch backend_up moderator alice "calmed down" false
                    (run_calls [Watch backend_up moderator alice "spam"] empty_state)))
    = [msg_unwatched alice].
Proof.
  pose proof (unwatch_single_active backend_up moderator alice "calmed down"
                false
                (run_calls [Watch backend_up moderator alice "spam"] empty_state)
                (1, {| inf_user := 7; inf_active := true; inf_type := "watch";
                       inf_reason := "spam"; inf_hidden := true;
                       inf_inserted_at := 1 |})
                eq_refl eq_refl eq_refl eq_refl)
    as (_ & _ & _ & _ & _ & _ & _ & _ & Hc & _ & Hs).
  split; [|exact Hs]. rewrite Hc. apply lookup_delete_eq.
Defined.

(** ** Unwatching a user who is not watched *)

(** C6: when the query of [apply_unwatch] returns no active watch record of
    the subject, the operation sends the "not watched" message if and only
    if [banned] is false, sends nothing when [banned] is true, and in either
    case writes nothing to the backend or the cache. *)
Theorem unwatch_not_watched (env : Env) (ctx : Context) (user : FetchedMember)
    (reason : string) (banned : bool) (st : State) :
  get_ok env = true →
  backend_active (backend st) (user_id user) = [] →
  let out := apply_unwatch env ctx user reason banned st in
  res out = Ok tt
  ∧ sent (evs_of out) = (if banned then [] else [msg_not_watched])
  ∧ (msg_not_watched ∈ sent (evs_of out) ↔ banned = false)
  ∧ (banned = true → sent (evs_of out) = [])
  ∧ Forall (λ e, is_backend_write e = false ∧ is_cache_write e = false)
      (evs_of out)
  ∧ st_of out = st.
Proof.
  intros Eg Eq out. subst out.
  rewrite (unwatch_none _ ctx _ reason banned _ Eg Eq).
  destruct banned; simpl; repeat split; try done.
  - by intros ?%not_elem_of_nil.
  - by repeat constructor.
  - intros _. left.
  - by repeat constructor.
Qed.

Lemma unwatch_not_watched_witness :
  sent (evs_of (apply_unwatch backend_up moderator alice "ban" true empty_state))
  = []
  ∧ sent (evs_of (apply_unwatch backend_up moderator alice "oops" false empty_state))
    = [msg_not_watched].
Proof.
  split.
  - exact (proj1 (proj2 (unwatch_not_watched backend_up moderator alice "ban"
                           true empty_state eq_refl eq_refl))).
  - exact (proj1 (proj2 (unwatch_not_watched backend_up moderator alice "oops"
                           false empty_state eq_refl eq_refl))).
Defined.

(** ** What failure paths say *)

(** C7, as stated, fails: unwatching as part of a ban a user who is not
    watched returns having sent nothing and changed nothing. *)
Lemma ban_unwatch_of_unwatched_user_is_silent :
  backend_active (backend empty_state) (user_id alice) = []
  ∧ apply_unwatch backend_up moderator alice "banned" true empty_state
    = (Ok tt, empty_state, [EvApiGet (active_params (user_id alice)) true])
  ∧ sent (evs_of (apply_unwatch backend_up moderator alice "banned" true
                    empty_state))
    = [].
Proof. by vm_compute. Qed.

(** C7, amended: every failure path of [apply_watch] that returns (the three
    guards and the empty create) sends exactly one message, a negative one;
    the not-watched path of [apply_unwatch] sends the "not watched" message
    exactly when [banned] is false and nothing when it is true; and nothing
    is retried: an operation makes at most one call of each kind to the
    backend. *)
Theorem failure_paths_report (env : Env) (ctx : Context) (user : FetchedMember)
    (reason : string) (banned : bool) (st : State) :
  let w := apply_watch env ctx user reason st in
  let uw := apply_unwatch env ctx user reason banned st in
  (∀ g, guard_of env st user = Some g →
        res w = Ok tt ∧ sent (evs_of w) = [guard_msg ctx user g]
        ∧ negative (guard_msg ctx user g))
  ∧ (guard_of env st user = None → post_ok env = false →
     res w = Ok tt ∧ sent (evs_of w) = [msg_post_failed]
     ∧ negative msg_post_failed)
  ∧ (res w = Ok tt → ∃ m, sent (evs_of w) = [m])
  ∧ (get_ok env = true → backend_active (backend st) (user_id user) = [] →
     res uw = Ok tt
     ∧ sent (evs_of uw) = (if banned then [] else [msg_not_watched])
     ∧ negative msg_not_watched)
  ∧ (∀ k, calls k (evs_of w) ≤ 1 ∧ calls k (evs_of uw) ≤ 1).
Proof.
  intros w uw. subst w uw. split; [|split; [|split; [|split]]].
  - intros g Hg. rewrite (watch_guard _ ctx _ reason _ _ Hg). by destruct g.
  - intros Hg Hp. by rewrite (watch_post_failed _ ctx _ reason _ Hg Hp).
  - destruct (guard_of env st user) as [g|] eqn:Eg.
    { rewrite (watch_guard _ ctx _ reason _ _ Eg). destruct g; by eexists. }
    destruct (post_ok env) eqn:Ep.
    2:{ rewrite (watch_post_failed _ ctx _ reason _ Eg Ep). by eexists. }
    rewrite (watch_created _ ctx _ reason _ Eg Ep).
    destruct (get_ok env); [by eexists|done].
  - intros Eg Eq. rewrite (unwatch_none _ ctx _ reason banned _ Eg Eq).
    by destruct banned.
  - intros k. unfold calls. split.
    + destruct (guard_of env st user) as [g|] eqn:Eg.
      { rewrite (watch_guard _ ctx _ reason _ _ Eg).
        destruct g, k; simpl; lia. }
      destruct (post_ok env) eqn:Ep.
      2:{ rewrite (watch_post_failed _ ctx _ reason _ Eg Ep).
          destruct k; simpl; lia. }
      rewrite (watch_created _ ctx _ reason _ Eg Ep).
      destruct (get_ok env), k; simpl; lia.
    + destruct (get_ok env) eqn:Eg.
      2:{ rewrite (unwatch_get_failed _ ctx _ reason banned _ Eg).
          destruct k; simpl; lia. }
      destruct (backend_active (backend st) (user_id user))
        as [|r [|r2 l]] eqn:Eq.
      * rewrite (unwatch_none _ ctx _ reason banned _ Eg Eq).
        destruct banned, k; simpl; lia.
      * destruct (patch_ok env) eqn:Ep.
        2:{ rewrite (unwatch_patch_failed _ ctx _ reason banned _ _ Eg Eq Ep).
            destruct k; simpl; lia. }
        rewrite (unwatch_one _ ctx _ reason banned _ _ Eg Eq Ep).
        destruct banned, k; simpl; lia.
      * rewrite (unwatch_many _ ctx _ reason banned _ Eg);
          [|rewrite Eq; simpl; lia].
        destruct k; simpl; lia.
Qed.

(** ** The cache is written after the backend *)

(** C8: in every execution of [apply_watch] and [apply_unwatch], whatever
    the backend answers, a cache put of the subject comes after the create
    that returned the record put, and a cache removal of the subject comes
    after the patch of its active record has succeeded; [apply_watch] never
    removes and [apply_unwatch] never puts.  The log misses no write: apart
    from a put, a removal and the reload of the second guard, which takes
    the backend's records as they are, nothing changes the cache. *)
Theorem cache_written_after_backend (env : Env) (ctx : Context)
    (user : FetchedMember) (reason : string) (banned : bool) (st : State) :
  let w := evs_of (apply_watch env ctx user reason st) in
  let uw := evs_of (apply_unwatch env ctx user reason banned st) in
  put_follows_create (user_id user) w
  ∧ remove_follows_patch (backend st) (user_id user) uw
  ∧ (∀ v, EvCacheRemove v ∉ w)
  ∧ (∀ v r, EvCachePut v r ∉ uw)
  ∧ (Forall (λ e, is_cache_event e = false) w →
     watched_users (st_of (apply_watch env ctx user reason st))
     = watched_users st)
  ∧ (Forall (λ e, is_cache_event e = false) uw →
     watched_users (st_of (apply_unwatch env ctx user reason banned st))
     = watched_users st).
Proof.
  intros w uw. subst w uw. split; [|split; [|split; [|split; [|split]]]].
  - intros i v r Hi. revert Hi.
    destruct (guard_of env st user) as [g|] eqn:Eg.
    { rewrite (watch_guard _ ctx _ reason _ _ Eg). destruct g; at_index i. }
    destruct (post_ok env) eqn:Ep.
    2:{ rewrite (watch_post_failed _ ctx _ reason _ Eg Ep). at_index i. }
    rewrite (watch_created _ ctx _ reason _ Eg Ep).
    destruct (get_ok env); at_index i;
      (split; [done|]); exists 1, (watch_payload user reason);
      repeat split; simpl; lia.
  - intros i v Hi. revert Hi.
    destruct (get_ok env) eqn:Eg.
    2:{ rewrite (unwatch_get_failed _ ctx _ reason banned _ Eg). at_index i. }
    destruct (backend_active (backend st) (user_id user))
      as [|r [|r2 l]] eqn:Eq.
    + rewrite (unwatch_none _ ctx _ reason banned _ Eg Eq).
      destruct banned; at_index i.
    + destruct (patch_ok env) eqn:Ep.
      2:{ rewrite (unwatch_patch_failed _ ctx _ reason banned _ _ Eg Eq Ep).
          at_index i. }
      rewrite (unwatch_one _ ctx _ reason banned _ _ Eg Eq Ep).
      assert (r ∈ backend_active (backend st) (user_id user)) as Hr
        by (rewrite Eq; left).
      apply elem_of_query in Hr as [Hr Hm]. apply matches_active in Hm.
      destruct banned; at_index i;
        (split; [done|]); exists 1, (inf_id r), r.2;
        repeat split; simpl; try lia; try done; tauto.
    + rewrite (unwatch_many _ ctx _ reason banned _ Eg);
        [|rewrite Eq; simpl; lia].
      at_index i.
  - intros v.
    destruct (guard_of env st user) as [g|] eqn:Eg.
    { rewrite (watch_guard _ ctx _ reason _ _ Eg).
      destruct g; not_in_log. }
    destruct (post_ok env) eqn:Ep.
    2:{ rewrite (watch_post_failed _ ctx _ reason _ Eg Ep). not_in_log. }
    rewrite (watch_created _ ctx _ reason _ Eg Ep).
    destruct (get_ok env); not_in_log.
  - intros v r0.
    destruct (get_ok env) eqn:Eg.
    2:{ rewrite (unwatch_get_failed _ ctx _ reason banned _ Eg). not_in_log. }
    destruct (backend_active (backend st) (user_id user))
      as [|r [|r2 l]] eqn:Eq.
    + rewrite (unwatch_none _ ctx _ reason banned _ Eg Eq).
      destruct banned; not_in_log.
    + destruct (patch_ok env) eqn:Ep.
      2:{ rewrite (unwatch_patch_failed _ ctx _ reason banned _ _ Eg Eq Ep).
          not_in_log. }
      rewrite (unwatch_one _ ctx _ reason banned _ _ Eg Eq Ep).
      destruct banned; not_in_log.
    + rewrite (unwatch_many _ ctx _ reason banned _ Eg);
        [|rewrite Eq; simpl; lia].
      not_in_log.
  - destruct (guard_of env st user) as [g|] eqn:Eg.
    { rewrite (watch_guard _ ctx _ reason _ _ Eg).
      destruct g; try done. by intros [[=] _]%Forall_cons. }
    destruct (post_ok env) eqn:Ep.
    2:{ rewrite (watch_post_failed _ ctx _ reason _ Eg Ep).
        by intros [[=] _]%Forall_cons. }
    rewrite (watch_created _ ctx _ reason _ Eg Ep).
    destruct (get_ok env); by intros [[=] _]%Forall_cons.
  - destruct (get_ok env) eqn:Eg.
    2:{ by rewrite (unwatch_get_failed _ ctx _ reason banned _ Eg). }
    destruct (backend_active (backend st) (user_id user))
      as [|r [|r2 l]] eqn:Eq.
    + by rewrite (unwatch_none _ ctx _ reason banned _ Eg Eq).
    + destruct (patch_ok env) eqn:Ep.
      2:{ by rewrite (unwatch_patch_failed _ ctx _ reason banned _ _ Eg Eq Ep). }
      rewrite (unwatch_one _ ctx _ reason banned _ _ Eg Eq Ep).
      intros H. exfalso. revert H.
      destruct banned; simpl; rewrite !Forall_cons; simpl; intuition congruence.
    + rewrite (unwatch_many _ ctx _ reason banned _ Eg);
        [done|rewrite Eq; simpl; lia].
Qed.

(** ** More than one active watch *)

(** C9: when the query of [apply_unwatch] returns more than one active watch
    record of the subject, the operation raises at the destructuring of
    line 114, having made no patch, no create, no cache write and sent no
    message; the backend and the cache are as they were. *)
Theorem unwatch_many_active_raises (env : Env) (ctx : Context)
    (user : FetchedMember) (reason : string) (banned : bool) (st : State) :
  get_ok env = true →
  1 < length (backend_active (backend st) (user_id user)) →
  let out := apply_unwatch env ctx user reason banned st in
  res out = Raise ValueError
  ∧ evs_of out = [EvApiGet (active_params (user_id user)) true]
  ∧ Forall (λ e, is_backend_write e = false ∧ is_cache_write e = false)
      (evs_of out)
  ∧ sent (evs_of out) = []
  ∧ st_of out = st.
Proof.
  intros Eg Hlen out. subst out.
  rewrite (unwatch_many _ ctx _ reason banned _ Eg Hlen).
  repeat split; by repeat constructor.
Qed.

Lemma unwatch_many_active_raises_witness :
  res (apply_unwatch backend_up moderator alice "calmed down" false watched_twice)
  = Raise ValueError
  ∧ st_of (apply_unwatch backend_up moderator alice "calmed down" false
             watched_twice)
    = watched_twice.
Proof.
  assert (1 < length (backend_active (backend watched_twice) (user_id alice)))
    as Hlen by (vm_compute; lia).
  destruct (unwatch_many_active_raises backend_up moderator alice "calmed down"
              false watched_twice eq_refl Hlen) as (Hr & _ & _ & _ & Hs).
  split; [exact Hr|exact Hs].
Defined.

(** ** The cache entries of other subjects *)

(** C10: [apply_unwatch] on a user leaves the cache entry of every other
    subject as it was, whatever the backend answers: the cache after the
    call is the cache before it, with at most the user's own entry removed,
    and the operation never refreshes the cache. *)
Theorem unwatch_cache_frame (env : Env) (ctx : Context) (user : FetchedMember)
    (reason : string) (banned : bool) (st : State) (s : nat) :
  s ≠ user_id user →
  let out := apply_unwatch env ctx user reason banned st in
  watched_users (st_of out) !! s = watched_users st !! s
  ∧ (watched_users (st_of out) = watched_users st
     ∨ watched_users (st_of out) = delete (user_id user) (watched_users st))
  ∧ calls KRefresh (evs_of out) = 0.
Proof.
  intros Hne out. subst out. unfold calls.
  destruct (get_ok env) eqn:Eg.
  2:{ rewrite (unwatch_get_failed _ ctx _ reason banned _ Eg). auto. }
  destruct (backend_active (backend st) (user_id user))
    as [|r [|r2 l]] eqn:Eq.
  - rewrite (unwatch_none _ ctx _ reason banned _ Eg Eq).
    destruct banned; auto.
  - destruct (patch_ok env) eqn:Ep.
    2:{ rewrite (unwatch_patch_failed _ ctx _ reason banned _ _ Eg Eq Ep).
        auto. }
    rewrite (unwatch_one _ ctx _ reason banned _ _ Eg Eq Ep). simpl.
    rewrite lookup_delete_ne by done. destruct banned; auto.
  - rewrite (unwatch_many _ ctx _ reason banned _ Eg);
      [|rewrite Eq; simpl; lia].
    auto.
Qed.

Lemma unwatch_cache_frame_witness :
  watched_users
    (st_of (apply_unwatch backend_up moderator alice "calmed down" false
              two_watched)) !! 8
  = watched_users two_watched !! 8.
Proof.
  assert (8 ≠ user_id alice) as Hne by (simpl; lia).
  exact (proj1 (unwatch_cache_frame backend_up moderator alice "calmed down"
                  false two_watched 8 Hne)).
Defined.

(** ** Beyond the failure paths: what the guards of [apply_watch] decide *)

Section guards.
Variables (env : Env) (st : State) (user : FetchedMember).

Lemma guard_of_None :
  guard_of env st user = None
  ↔ user_bot user = false ∧ fetch_ok env = true
    ∧ user_id user ∉ dom (refreshed (backend st)).
Proof.
  unfold guard_of. destruct (user_bot user), (fetch_ok env); simpl;
    try case_bool_decide; intuition congruence.
Qed.

Lemma in_refreshed db u : u ∈ dom (refreshed db) ↔ backend_active db u ≠ [].
Proof.
  split.
  - intros [r Hr]%elem_of_dom Hnil. apply refreshed_lookup in Hr.
    rewrite Hnil in Hr. by apply not_elem_of_nil in Hr.
  - intros Hne. destruct (refreshed db !! u) eqn:E; [by eapply elem_of_dom_2|].
    by apply refreshed_None in E.
Qed.

Lemma guard_None_not_active :
  guard_of env st user = None →
  backend_active (backend st) (user_id user) = [].
Proof.
  intros (_ & _ & Hd)%guard_of_None.
  destruct (backend_active (backend st) (user_id user)) eqn:E; [done|].
  destruct Hd. apply in_refreshed. by rewrite E.
Qed.

Lemma guard_AlreadyWatched :
  user_bot user = false → fetch_ok env = true →
  backend_active (backend st) (user_id user) ≠ [] →
  guard_of env st user = Some AlreadyWatched.
Proof.
  intros Hb Hf Hne. unfold guard_of. rewrite Hb, Hf. simpl.
  rewrite bool_decide_eq_true_2; [done|]. by apply in_refreshed.
Qed.
End guards.

(** ** A watch that goes through *)

Lemma history_length_after_watch db user reason :
  length (query (history_params (user_id user))
            (store (create (watch_payload user reason) db) db))
  = length (query (history_params (user_id user)) db).
Proof.
  unfold store. rewrite query_insert_fresh by apply fresh_id_fresh.
  destruct (matches _ _) eqn:E; [|done].
  unfold matches in E. simpl in E.
  rewrite !andb_true_iff, !bool_decide_eq_true in E.
  by destruct E as [[_ ?] _].
Qed.

(** X1: when the guards of [apply_watch] pass and the create returns a
    record, that record is new in the backend, carries the user, the reason,
    type "watch", hidden and active, is the one active watch of the user, and
    is the user's cache entry; this holds whether or not the history query
    that follows succeeds, and if it does the operation returns having sent
    a single message that starts with the confirmation. *)
Theorem watch_creates_and_caches (env : Env) (ctx : Context)
    (user : FetchedMember) (reason : string) (st : State) :
  guard_of env st user = None →
  post_ok env = true →
  let out := apply_watch env ctx user reason st in
  let r := create (watch_payload user reason) (backend st) in
  backend st !! inf_id r = None
  ∧ backend (st_of out) = <[inf_id r := r.2]> (backend st)
  ∧ (inf_user r.2 = user_id user ∧ inf_reason r.2 = reason
     ∧ inf_type r.2 = "watch" ∧ inf_hidden r.2 = true
     ∧ inf_active r.2 = true)
  ∧ backend_active (backend (st_of out)) (user_id user) = [r]
  ∧ watched_users (st_of out) !! user_id user = Some r
  ∧ (get_ok env = true →
     res out = Ok tt
     ∧ ∃ d, sent (evs_of out)
            = [msg_watching user +:+ from_option render "" d]).
Proof.
  intros Hg Hp out r. subst out.
  rewrite (watch_created _ ctx _ reason _ Hg Hp).
  pose proof (guard_None_not_active _ _ _ Hg) as Hnone.
  pose proof (backend_active_store_watch _ _ reason Hnone) as Hone.
  fold r in Hone.
  split; [apply fresh_id_fresh|].
  destruct (get_ok env); simpl; rewrite lookup_insert_eq;
    repeat split; try done.
  by eexists.
Qed.

Lemma watch_creates_and_caches_witness :
  backend_active
    (backend (st_of (apply_watch backend_up moderator alice "spam" empty_state)))
    (user_id alice)
  = [create (watch_payload alice "spam") (backend empty_state)].
Proof.
  exact (proj1 (proj2 (proj2 (proj2
    (watch_creates_and_caches backend_up moderator alice "spam" empty_state
       eq_refl eq_refl))))).
Defined.

(** X2: for a user who is not a bot and with a refresh that succeeds,
    [apply_watch] calls [post_infraction] exactly when the backend holds no
    active watch of the user, and then once; what the cache held before the
    call plays no part. *)
Theorem watch_posts_iff_not_active (env : Env) (ctx : Context)
    (user : FetchedMember) (reason : string) (st : State) :
  user_bot user = false →
  fetch_ok env = true →
  calls KPost (evs_of (apply_watch env ctx user reason st))
  = match backend_active (backend st) (user_id user) with
    | [] => 1
    | _ => 0
    end.
Proof.
  intros Hb Hf. unfold calls.
  destruct (guard_of env st user) as [g|] eqn:Hg.
  - assert (g = AlreadyWatched) as ->.
    { unfold guard_of in Hg. rewrite Hb, Hf in Hg. simpl in Hg.
      by case_bool_decide; simplify_eq. }
    rewrite (watch_guard _ ctx _ reason _ _ Hg).
    unfold guard_of in Hg. rewrite Hb, Hf in Hg. simpl in Hg.
    case_bool_decide as Hd; [|done]. apply in_refreshed in Hd.
    by destruct (backend_active _ _).
  - rewrite (guard_None_not_active _ _ _ Hg).
    destruct (post_ok env) eqn:Hp.
    + rewrite (watch_created _ ctx _ reason _ Hg Hp). by destruct (get_ok env).
    + by rewrite (watch_post_failed _ ctx _ reason _ Hg Hp).
Qed.

Lemma watch_posts_iff_not_active_witness :
  calls KPost (evs_of (apply_watch backend_up moderator alice "spam" cold_start))
  = 0
  ∧ calls KPost (evs_of (apply_watch backend_up moderator alice "spam" stale_entry))
    = 1.
Proof.
  split.
  - exact (watch_posts_iff_not_active backend_up moderator alice "spam"
             cold_start eq_refl eq_refl).
  - exact (watch_posts_iff_not_active backend_up moderator alice "spam"
             stale_entry eq_refl eq_refl).
Defined.

Lemma append_empty_r (s : string) : s +:+ "" = s.
Proof.
  induction s as [|a s IH]; [done|].
  change (String a (s +:+ "") = String a s). by rewrite IH.
Qed.

(** X3: on a watch that goes through, the message carries a digest exactly
    when the backend held more than one inactive watch record of the user
    before the call, and the digest counts half of them; with fewer the
    message is the bare confirmation.  The record just created is never part
    of the history. *)
Theorem watch_digest_counts_prior_records (env : Env) (ctx : Context)
    (user : FetchedMember) (reason : string) (st : State) :
  guard_of env st user = None →
  post_ok env = true →
  get_ok env = true →
  let out := apply_watch env ctx user reason st in
  let prior := length (query (history_params (user_id user)) (backend st)) in
  ∃ d, sent (evs_of out) = [msg_watching user +:+ from_option render "" d]
       ∧ (is_Some d ↔ 1 < prior)
       ∧ (∀ x, d = Some x → episode_count x = prior `div` 2)
       ∧ (prior ≤ 1 → sent (evs_of out) = [msg_watching user]).
Proof.
  intros Hg Hp He out prior. subst out.
  rewrite (watch_created _ ctx _ reason _ Hg Hp), He.
  pose proof (history_length_after_watch (backend st) user reason) as Hlen.
  fold prior in Hlen.
  set (history := query _ (store _ _)) in *.
  exists (digest_of history). simpl. split; [done|].
  clearbody history prior. subst prior.
  destruct history as [|h0 [|h1 l]].
  - simpl. rewrite append_empty_r. repeat split; try done; lia.
  - simpl. rewrite append_empty_r. repeat split; try done; lia.
  - unfold digest_of. split; [|split].
    + split; [simpl; lia|by eexists].
    + by intros x [= <-].
    + simpl. lia.
Qed.

Lemma watch_digest_counts_prior_records_witness :
  sent (evs_of (apply_watch backend_up moderator alice "spam" empty_state))
  = [msg_watching alice].
Proof.
  destruct (watch_digest_counts_prior_records backend_up moderator alice "spam"
              empty_state eq_refl eq_refl eq_refl) as (d & _ & _ & _ & H).
  apply H. vm_compute. lia.
Defined.

(** X4: when the history query fails after the create, [apply_watch] raises
    without having sent anything, and the watch is in force all the same:
    the record is the user's active watch in the backend and the user's cache
    entry. *)
Theorem watch_history_failure_keeps_watch (env : Env) (ctx : Context)
    (user : FetchedMember) (reason : string) (st : State) :
  guard_of env st user = None →
  post_ok env = true →
  get_ok env = false →
  let out := apply_watch env ctx user reason st in
  let r := create (watch_payload user reason) (backend st) in
  res out = Raise ResponseCodeError
  ∧ sent (evs_of out) = []
  ∧ backend_active (backend (st_of out)) (user_id user) = [r]
  ∧ watched_users (st_of out) !! user_id user = Some r.
Proof.
  intros Hg Hp He out r. subst out.
  rewrite (watch_created _ ctx _ reason _ Hg Hp), He. simpl.
  rewrite lookup_insert_eq. repeat split; try done.
  apply backend_active_store_watch. by eapply guard_None_not_active.
Qed.

Lemma watch_history_failure_keeps_watch_witness :
  res (apply_watch (mkEnv true true false true) moderator alice "spam"
         empty_state)
  = Raise ResponseCodeError
  ∧ sent (evs_of (apply_watch (mkEnv true true false true) moderator alice
                    "spam" empty_state))
    = [].
Proof.
  destruct (watch_history_failure_keeps_watch (mkEnv true true false true)
              moderator alice "spam" empty_state eq_refl eq_refl eq_refl)
    as (Hr & Hs & _).
  split; [exact Hr|exact Hs].
Defined.

(** ** An unwatch that goes through, and the errors on its way *)

Lemma unwatch_one_state (env : Env) (ctx : Context) (user : FetchedMember)
    (reason : string) (banned : bool) (st : State) (r : infraction) :
  get_ok env = true →
  backend_active (backend st) (user_id user) = [r] →
  patch_ok env = true →
  let st' := st_of (apply_unwatch env ctx user reason banned st) in
  backend_active (backend st') (user_id user) = []
  ∧ backend st' !! inf_id r = Some (set_active false r.2)
  ∧ watched_users st' = delete (user_id user) (watched_users st).
Proof.
  intros Eg Eq Ep st'. subst st'.
  rewrite (unwatch_one _ ctx _ reason banned _ _ Eg Eq Ep). simpl.
  set (db1 := patch (inf_id r) false (backend st)).
  assert (r ∈ backend_active (backend st) (user_id user)) as Hr
    by (rewrite Eq; left).
  apply elem_of_query in Hr as [Hr _].
  assert (db1 !! inf_id r = Some (set_active false r.2)) as Hp.
  { subst db1. unfold patch, inf_id. by rewrite lookup_alter_eq, Hr. }
  assert (backend_active db1 (user_id user) = []) as Hnone
    by (by apply backend_active_patch_same).
  destruct (post_ok env); [|done]. repeat split.
  - apply Permutation_nil_r.
    by rewrite backend_active_store_inactive, Hnone.
  - assert (db1 !! inf_id (create (unwatch_payload user reason) db1) = None)
      as Hf by apply fresh_id_fresh.
    unfold store. rewrite lookup_insert_ne; [done|]. intros Heq.
    unfold inf_id in *. rewrite Heq in Hf. congruence.
Qed.

(** X5: the answer to the closing create of line 121 is not looked at: when
    it comes back empty, [apply_unwatch] has still deactivated the record,
    writes no closing record, removes the user from the cache and reports
    success as if the audit entry existed. *)
Theorem unwatch_ignores_failed_closing_post (env : Env) (ctx : Context)
    (user : FetchedMember) (reason : string) (banned : bool) (st : State)
    (r : infraction) :
  get_ok env = true →
  backend_active (backend st) (user_id user) = [r] →
  patch_ok env = true →
  post_ok env = false →
  let out := apply_unwatch env ctx user reason banned st in
  res out = Ok tt
  ∧ backend (st_of out) = patch (inf_id r) false (backend st)
  ∧ dom (backend (st_of out)) = dom (backend st)
  ∧ backend_active (backend (st_of out)) (user_id user) = []
  ∧ watched_users (st_of out) !! user_id user = None
  ∧ sent (evs_of out) = (if banned then [] else [msg_unwatched user]).
Proof.
  intros Eg Eq Ep Epost out. subst out.
  destruct (unwatch_one_state _ ctx _ reason banned _ _ Eg Eq Ep)
    as (Hnone & _ & Hc).
  revert Hnone Hc.
  rewrite (unwatch_one _ ctx _ reason banned _ _ Eg Eq Ep), Epost. simpl.
  intros Hnone Hc. repeat split; try done.
  - unfold patch. apply dom_alter_L.
  - apply lookup_delete_eq.
  - by destruct banned.
Qed.

Lemma unwatch_ignores_failed_closing_post_witness :
  sent (evs_of (apply_unwatch (mkEnv true false true true) moderator alice
                  "calmed down" false cold_start))
  = [msg_unwatched alice].
Proof.
  pose proof (unwatch_ignores_failed_closing_post (mkEnv true false true true)
                moderator alice "calmed down" false cold_start
                (1, {| inf_user := 7; inf_active := true; inf_type := "watch";
                       inf_reason := "spam"; inf_hidden := true;
                       inf_inserted_at := 1 |})
                eq_refl eq_refl eq_refl eq_refl)
    as (_ & _ & _ & _ & _ & Hs).
  exact Hs.
Defined.

(** X6: when the query of line 105 or the patch of line 116 fails,
    [apply_unwatch] raises the client's error having sent nothing, created no
    closing record and left backend and cache as they were: the user stays
    watched and stays in the cache. *)
Theorem unwatch_backend_error_changes_nothing (env : Env) (ctx : Context)
    (user : FetchedMember) (reason : string) (banned : bool) (st : State) :
  get_ok env = false
  ∨ (patch_ok env = false
     ∧ length (backend_active (backend st) (user_id user)) = 1) →
  let out := apply_unwatch env ctx user reason banned st in
  res out = Raise ResponseCodeError
  ∧ st_of out = st
  ∧ sent (evs_of out) = []
  ∧ calls KPost (evs_of out) = 0.
Proof.
  intros H out. subst out. destruct (get_ok env) eqn:Eg.
  - destruct H as [?|[Ep Hlen]]; [done|].
    destruct (backend_active (backend st) (user_id user))
      as [|r [|r2 l]] eqn:Eq; try done.
    by rewrite (unwatch_patch_failed _ ctx _ reason banned _ _ Eg Eq Ep).
  - by rewrite (unwatch_get_failed _ ctx _ reason banned _ Eg).
Qed.

Lemma unwatch_backend_error_changes_nothing_witness :
  st_of (apply_unwatch (mkEnv true true true false) moderator alice
           "calmed down" false cold_start)
  = cold_start.
Proof.
  assert (get_ok (mkEnv true true true false) = false
          ∨ (patch_ok (mkEnv true true true false) = false
             ∧ length (backend_active (backend cold_start) (user_id alice)) = 1))
    as H by (right; split; reflexivity).
  exact (proj1 (proj2
    (unwatch_backend_error_changes_nothing (mkEnv true true true false)
       moderator alice "calmed down" false cold_start H))).
Defined.

(** X7: [apply_unwatch] never reads the cache: on the same backend, two
    caches give the same result, the same log and the same backend, and each
    cache comes out as it went in or with the user's entry removed, the same
    way for both. *)
Theorem unwatch_does_not_read_cache (env : Env) (ctx : Context)
    (user : FetchedMember) (reason : string) (banned : bool)
    (db : gmap nat fields) (c1 c2 : gmap nat infraction) :
  let o1 := apply_unwatch env ctx user reason banned (mkState db c1) in
  let o2 := apply_unwatch env ctx user reason banned (mkState db c2) in
  res o1 = res o2
  ∧ evs_of o1 = evs_of o2
  ∧ backend (st_of o1) = backend (st_of o2)
  ∧ ((watched_users (st_of o1) = c1 ∧ watched_users (st_of o2) = c2)
     ∨ (watched_users (st_of o1) = delete (user_id user) c1
        ∧ watched_users (st_of o2) = delete (user_id user) c2)).
Proof.
  intros o1 o2. subst o1 o2.
  destruct (get_ok env) eqn:Eg.
  2:{ rewrite !(unwatch_get_failed _ ctx _ reason banned _ Eg). simpl.
      repeat split; try done. by left. }
  destruct (backend_active db (user_id user)) as [|r [|r2 l]] eqn:Eq.
  - rewrite !(unwatch_none _ ctx _ reason banned _ Eg) by done. simpl.
    repeat split; try done. by left.
  - destruct (patch_ok env) eqn:Ep.
    + rewrite !(unwatch_one _ ctx _ reason banned _ r Eg) by done. simpl.
      repeat split; try done. by right.
    + rewrite !(unwatch_patch_failed _ ctx _ reason banned _ r Eg) by done.
      simpl. repeat split; try done. by left.
  - rewrite !(unwatch_many _ ctx _ reason banned _ Eg)
      by (simpl; rewrite Eq; simpl; lia).
    simpl. repeat split; try done. by left.
Qed.

(** X8: the two commands always answer: whenever [watch_command] returns it
    has sent exactly one message, and whenever [unwatch_command] returns it
    has sent exactly one, the confirmation or "not watched"; the silence of
    [apply_unwatch] is reserved to callers that pass [banned]. *)
Theorem commands_always_answer (env : Env) (ctx : Context)
    (user : FetchedMember) (reason : string) (st : State) :
  (res (watch_command env ctx user reason st) = Ok tt →
   ∃ m, sent (evs_of (watch_command env ctx user reason st)) = [m])
  ∧ (res (unwatch_command env ctx user reason st) = Ok tt →
     sent (evs_of (unwatch_command env ctx user reason st))
     = [msg_unwatched user]
     ∨ sent (evs_of (unwatch_command env ctx user reason st))
       = [msg_not_watched]).
Proof.
  unfold watch_command, unwatch_command. split.
  - destruct (guard_of env st user) as [g|] eqn:Hg.
    { rewrite (watch_guard _ ctx _ reason _ _ Hg). destruct g; by eexists. }
    destruct (post_ok env) eqn:Hp.
    2:{ rewrite (watch_post_failed _ ctx _ reason _ Hg Hp). by eexists. }
    rewrite (watch_created _ ctx _ reason _ Hg Hp).
    destruct (get_ok env); [by eexists|done].
  - destruct (get_ok env) eqn:Eg.
    2:{ by rewrite (unwatch_get_failed _ ctx _ reason false _ Eg). }
    destruct (backend_active (backend st) (user_id user))
      as [|r [|r2 l]] eqn:Eq.
    + rewrite (unwatch_none _ ctx _ reason false _ Eg Eq). by right.
    + destruct (patch_ok env) eqn:Ep.
      * rewrite (unwatch_one _ ctx _ reason false _ _ Eg Eq Ep). by left.
      * by rewrite (unwatch_patch_failed _ ctx _ reason false _ _ Eg Eq Ep).
    + rewrite (unwatch_many _ ctx _ reason false _ Eg); [done|].
      rewrite Eq. simpl. lia.
Qed.

(** ** The forced refresh of [apply_watch] *)

Lemma created_state_agrees (env : Env) (user : FetchedMember)
    (reason : string) (st : State) (s : nat) :
  guard_of env st user = None →
  at_most_one_active (backend st) s →
  let r := create (watch_payload user reason) (backend st) in
  cache_agrees
    (mkState (store r (backend st))
       (<[user_id user := r]> (refreshed (backend st)))) s.
Proof.
  intros Hg Hone r. destruct (decide (user_id user = s)) as [<-|Hne].
  - unfold cache_agrees. simpl. rewrite lookup_insert_eq. simpl.
    apply backend_active_store_watch. by eapply guard_None_not_active.
  - apply (agrees_transfer s (mkState (backend st) (refreshed (backend st)))).
    + by apply backend_active_store_other.
    + simpl. by rewrite lookup_insert_ne.
    + by apply refreshed_agrees.
Qed.

(** X9: once the refresh of line 69 has succeeded, nothing of the cache
    that [apply_watch] found is left to matter: on the same backend, two
    caches give the same result, the same log and the same final state,
    cache included. *)
Theorem watch_outcome_independent_of_cache (env : Env) (ctx : Context)
    (user : FetchedMember) (reason : string) (db : gmap nat fields)
    (c1 c2 : gmap nat infraction) :
  user_bot user = false →
  fetch_ok env = true →
  apply_watch env ctx user reason (mkState db c1)
  = apply_watch env ctx user reason (mkState db c2).
Proof.
  intros Hb Hf.
  assert (guard_of env (mkState db c1) user = guard_of env (mkState db c2) user)
    as Hgg by done.
  destruct (guard_of env (mkState db c2) user) as [g|] eqn:Hg.
  - rewrite (watch_guard _ ctx _ reason _ _ Hg),
      (watch_guard _ ctx _ reason _ _ Hgg).
    destruct g; try done; unfold guard_of in Hg; rewrite Hb, ?Hf in Hg;
      simpl in Hg; by try case_bool_decide.
  - destruct (post_ok env) eqn:Hp.
    + by rewrite (watch_created _ ctx _ reason _ Hg Hp),
        (watch_created _ ctx _ reason _ Hgg Hp).
    + by rewrite (watch_post_failed _ ctx _ reason _ Hg Hp),
        (watch_post_failed _ ctx _ reason _ Hgg Hp).
Qed.


Lemma watch_outcome_independent_of_cache_witness :
  apply_watch backend_up moderator alice "spam"
    (mkState (backend stale_entry) (watched_users stale_entry))
  = apply_watch backend_up moderator alice "spam"
      (mkState (backend stale_entry) ∅).
Proof.
  exact (watch_outcome_independent_of_cache backend_up moderator alice "spam"
           (backend stale_entry) (watched_users stale_entry) ∅
           eq_refl eq_refl).
Defined.

(** X10: an [apply_watch] on a user who is not a bot, with a refresh that
    succeeds, leaves the cache in step with the backend for every subject
    with at most one active watch, whatever the cache held before and
    however the rest of the operation goes. *)
Theorem watch_resynchronises_cache (env : Env) (ctx : Context)
    (user : FetchedMember) (reason : string) (st : State) (s : nat) :
  user_bot user = false →
  fetch_ok env = true →
  at_most_one_active (backend st) s →
  cache_agrees (st_of (apply_watch env ctx user reason st)) s.
Proof.
  intros Hb Hf Hone.
  destruct (guard_of env st user) as [g|] eqn:Hg.
  - rewrite (watch_guard _ ctx _ reason _ _ Hg).
    unfold guard_of in Hg. rewrite Hb, Hf in Hg. simpl in Hg.
    case_bool_decide; simplify_eq. by apply refreshed_agrees.
  - destruct (post_ok env) eqn:Hp.
    + rewrite (watch_created _ ctx _ reason _ Hg Hp).
      pose proof (created_state_agrees _ _ reason _ _ Hg Hone).
      by destruct (get_ok env).
    + rewrite (watch_post_failed _ ctx _ reason _ Hg Hp).
      by apply refreshed_agrees.
Qed.

Lemma watch_resynchronises_cache_witness :
  cache_agrees
    (st_of (apply_watch (mkEnv true false true true) moderator bob "flood"
              cold_start))
    7.
Proof.
  assert (at_most_one_active (backend cold_start) 7) as Hone.
  { unfold at_most_one_active. vm_compute. lia. }
  exact (watch_resynchronises_cache (mkEnv true false true true) moderator bob
           "flood" cold_start 7 eq_refl eq_refl Hone).
Defined.

(** ** Operations one after the other *)

(** X11: a watch that went through makes the next [apply_watch] of the same
    user, with a refresh that succeeds, a rejection: it says "already being
    watched", creates nothing and leaves the backend as the first call left
    it. *)
Theorem second_watch_is_rejected (env1 env2 : Env) (ctx1 ctx2 : Context)
    (user : FetchedMember) (reason1 reason2 : string) (st : State) :
  guard_of env1 st user = None →
  post_ok env1 = true →
  fetch_ok env2 = true →
  let st1 := st_of (apply_watch env1 ctx1 user reason1 st) in
  let out := apply_watch env2 ctx2 user reason2 st1 in
  res out = Ok tt
  ∧ sent (evs_of out) = [msg_already_watched user]
  ∧ calls KPost (evs_of out) = 0
  ∧ backend (st_of out) = backend st1.
Proof.
  intros Hg Hp Hf st1 out.
  assert (guard_of env2 st1 user = Some AlreadyWatched) as Hg2.
  { apply guard_AlreadyWatched; [by apply guard_of_None in Hg as (? & _)|done|].
    subst st1. rewrite (watch_created _ ctx1 _ reason1 _ Hg Hp).
    assert (backend_active
              (store (create (watch_payload user reason1) (backend st))
                 (backend st)) (user_id user) ≠ []) as Hne.
    { rewrite backend_active_store_watch; [done|].
      by eapply guard_None_not_active. }
    by destruct (get_ok env1). }
  subst out. by rewrite (watch_guard _ ctx2 _ reason2 _ _ Hg2).
Qed.

Lemma second_watch_is_rejected_witness :
  sent (evs_of (apply_watch backend_up moderator alice "again"
                  (st_of (apply_watch backend_up moderator alice "spam"
                            empty_state))))
  = [msg_already_watched alice].
Proof.
  exact (proj1 (proj2
    (second_watch_is_rejected backend_up backend_up moderator moderator alice
       "spam" "again" empty_state eq_refl eq_refl eq_refl))).
Defined.

(** X12: a watch that went through followed by an [apply_unwatch] of the same
    user, with the query and the patch succeeding, is a round trip on the
    watch list: the patch goes to the record the watch created, which ends
    inactive; the user has no active watch; and the cache is the one the
    refresh had loaded before the watch, the user's entry gone again. *)
Theorem watch_then_unwatch (env1 env2 : Env) (ctx1 ctx2 : Context)
    (user : FetchedMember) (reason1 reason2 : string) (banned : bool)
    (st : State) :
  guard_of env1 st user = None →
  post_ok env1 = true →
  get_ok env2 = true →
  patch_ok env2 = true →
  let r := create (watch_payload user reason1) (backend st) in
  let st1 := st_of (apply_watch env1 ctx1 user reason1 st) in
  let out := apply_unwatch env2 ctx2 user reason2 banned st1 in
  res out = Ok tt
  ∧ EvApiPatch (inf_id r) false true ∈ evs_of out
  ∧ backend (st_of out) !! inf_id r = Some (set_active false r.2)
  ∧ backend_active (backend (st_of out)) (user_id user) = []
  ∧ watched_users (st_of out) = refreshed (backend st).
Proof.
  intros Hg Hp Eg Ep r st1 out.
  assert (backend_active (backend st1) (user_id user) = [r]
          ∧ watched_users st1 = <[user_id user := r]> (refreshed (backend st)))
    as [Hq Hc].
  { subst st1. rewrite (watch_created _ ctx1 _ reason1 _ Hg Hp).
    assert (backend_active (store r (backend st)) (user_id user) = [r]) as H.
    { apply backend_active_store_watch. by eapply guard_None_not_active. }
    by destruct (get_ok env1). }
  destruct (unwatch_one_state _ ctx2 _ reason2 banned _ _ Eg Hq Ep)
    as (Hnone & Hr & Hdel).
  subst out. split; [|split; [|split; [done|split; [done|]]]].
  - by rewrite (unwatch_one _ ctx2 _ reason2 banned _ _ Eg Hq Ep).
  - rewrite (unwatch_one _ ctx2 _ reason2 banned _ _ Eg Hq Ep). simpl.
    right. left.
  - rewrite Hdel, Hc. apply delete_insert_id, not_elem_of_dom.
    by apply guard_of_None in Hg as (_ & _ & ?).
Qed.

Lemma watch_then_unwatch_witness :
  watched_users
    (st_of (apply_unwatch backend_up moderator alice "calmed down" false
              (st_of (apply_watch backend_up moderator alice "spam"
                        empty_state))))
  = refreshed (backend empty_state).
Proof.
  exact (proj2 (proj2 (proj2 (proj2
    (watch_then_unwatch backend_up backend_up moderator moderator alice
       "spam" "calmed down" false empty_state
       eq_refl eq_refl eq_refl eq_refl))))).
Defined.



(** ** What the operations do to the backend's active watches *)

Lemma watch_backend_frame (env : Env) (ctx : Context) (user : FetchedMember)
    (reason : string) (st : State) (s : nat) :
  s ≠ user_id user →
  backend_active (backend (st_of (apply_watch env ctx user reason st))) s
    ≡ₚ backend_active (backend st) s.
Proof.
  intros Hne. destruct (guard_of env st user) as [g|] eqn:Hg.
  { rewrite (watch_guard _ ctx _ reason _ _ Hg). by destruct g. }
  destruct (post_ok env) eqn:Hp.
  2:{ by rewrite (watch_post_failed _ ctx _ reason _ Hg Hp). }
  rewrite (watch_created _ ctx _ reason _ Hg Hp).
  assert (backend_active
            (store (create (watch_payload user reason) (backend st))
               (backend st)) s ≡ₚ backend_active (backend st) s) as H.
  { apply backend_active_store_other. simpl. congruence. }
  by destruct (get_ok env).
Qed.

Lemma unwatch_backend_frame (env : Env) (ctx : Context) (user : FetchedMember)
    (reason : string) (banned : bool) (st : State) (s : nat) :
  s ≠ user_id user →
  backend_active
    (backend (st_of (apply_unwatch env ctx user reason banned st))) s
    ≡ₚ backend_active (backend st) s.
Proof.
  intros Hne. destruct (get_ok env) eqn:Eg.
  2:{ by rewrite (unwatch_get_failed _ ctx _ reason banned _ Eg). }
  destruct (backend_active (backend st) (user_id user))
    as [|r [|r2 l]] eqn:Eq.
  - by rewrite (unwatch_none _ ctx _ reason banned _ Eg Eq).
  - destruct (patch_ok env) eqn:Ep.
    2:{ by rewrite (unwatch_patch_failed _ ctx _ reason banned _ _ Eg Eq Ep). }
    rewrite (unwatch_one _ ctx _ reason banned _ _ Eg Eq Ep). simpl.
    assert (backend_active (patch (inf_id r) false (backend st)) s
              ≡ₚ backend_active (backend st) s) as Hp.
    { apply (backend_active_patch_other _ (user_id user)); [|done].
      rewrite Eq. left. }
    destruct (post_ok env); [|done].
    by rewrite backend_active_store_inactive.
  - rewrite (unwatch_many _ ctx _ reason banned _ Eg); [done|].
    rewrite Eq. simpl. lia.
Qed.

(** X14: neither operation touches the active watches of anyone else: after
    [apply_watch] or [apply_unwatch] on a user, whatever the backend
    answered, every other subject has the active watch records it had (the
    same records; a query may list them in another order). *)
Theorem other_subjects_keep_their_watches (env : Env) (ctx : Context)
    (user : FetchedMember) (reason : string) (banned : bool) (st : State)
    (s : nat) :
  s ≠ user_id user →
  backend_active (backend (st_of (apply_watch env ctx user reason st))) s
    ≡ₚ backend_active (backend st) s
  ∧ backend_active
      (backend (st_of (apply_unwatch env ctx user reason banned st))) s
    ≡ₚ backend_active (backend st) s.
Proof.
  intros Hne. split.
  - by apply watch_backend_frame.
  - by apply unwatch_backend_frame.
Qed.

Lemma other_subjects_keep_their_watches_witness :
  backend_active
    (backend (st_of (apply_unwatch backend_up moderator alice "calmed down"
                       false two_watched))) 8
  ≡ₚ backend_active (backend two_watched) 8.
Proof.
  assert (8 ≠ user_id alice) as Hne by (simpl; lia).
  exact (proj2 (other_subjects_keep_their_watches backend_up moderator alice
                  "calmed down" false two_watched 8 Hne)).
Defined.

(** X15: [apply_unwatch] never adds an active watch and [apply_watch] never
    takes one away: for every subject, the number of active watch records
    does not grow under [apply_unwatch], and under [apply_watch] it stays or
    grows by one. *)
Theorem active_watches_move_one_way (env : Env) (ctx : Context)
    (user : FetchedMember) (reason : string) (banned : bool) (st : State)
    (s : nat) :
  let before := length (backend_active (backend st) s) in
  let after_watch :=
    length (backend_active
              (backend (st_of (apply_watch env ctx user reason st))) s) in
  let after_unwatch :=
    length (backend_active
              (backend (st_of (apply_unwatch env ctx user reason banned st))) s) in
  after_unwatch ≤ before ∧ before ≤ after_watch ∧ after_watch ≤ S before.
Proof.
  intros before aw au. subst before aw au. split.
  - destruct (get_ok env) eqn:Eg.
    2:{ by rewrite (unwatch_get_failed _ ctx _ reason banned _ Eg). }
    destruct (backend_active (backend st) (user_id user))
      as [|r [|r2 l]] eqn:Eq.
    + by rewrite (unwatch_none _ ctx _ reason banned _ Eg Eq).
    + destruct (patch_ok env) eqn:Ep.
      2:{ by rewrite (unwatch_patch_failed _ ctx _ reason banned _ _ Eg Eq Ep). }
      rewrite (unwatch_one _ ctx _ reason banned _ _ Eg Eq Ep). simpl.
      pose proof (backend_active_patch_length (backend st) (inf_id r) s).
      destruct (post_ok env); [|done].
      by rewrite backend_active_store_inactive.
    + rewrite (unwatch_many _ ctx _ reason banned _ Eg); [done|].
      rewrite Eq. simpl. lia.
  - destruct (guard_of env st user) as [g|] eqn:Hg.
    { rewrite (watch_guard _ ctx _ reason _ _ Hg).
      destruct g; unfold st_of; cbn [fst snd backend]; lia. }
    destruct (post_ok env) eqn:Hp.
    2:{ rewrite (watch_post_failed _ ctx _ reason _ Hg Hp).
        unfold st_of; cbn [fst snd backend]; lia. }
    rewrite (watch_created _ ctx _ reason _ Hg Hp).
    assert (length (backend_active (backend st) s)
            ≤ length (backend_active
                        (store (create (watch_payload user reason) (backend st))
                           (backend st)) s)
            ≤ S (length (backend_active (backend st) s))) as H.
    { rewrite backend_active_store, length_app.
      destruct (matches _ _); simpl; lia. }
    destruct (get_ok env); unfold st_of; cbn [fst snd backend]; lia.
Qed.

(** ** Two active watches of one user *)

Lemma run_call_keeps_duplicates (u : nat) (st : State) (c : call) :
  1 < length (backend_active (backend st) u) →
  backend_active (backend (run_call st c)) u
    ≡ₚ backend_active (backend st) u.
Proof.
  intros Hlen. destruct c as [env ctx user reason|env ctx user reason banned];
    simpl; destruct (decide (u = user_id user)) as [->|Hne];
    try (by apply watch_backend_frame); try (by apply unwatch_backend_frame).
  - destruct (guard_of env st user) as [g|] eqn:Hg.
    { rewrite (watch_guard _ ctx _ reason _ _ Hg). by destruct g. }
    rewrite (guard_None_not_active _ _ _ Hg) in Hlen. simpl in Hlen. lia.
  - destruct (get_ok env) eqn:Eg.
    + by rewrite (unwatch_many _ ctx _ reason banned _ Eg Hlen).
    + by rewrite (unwatch_get_failed _ ctx _ reason banned _ Eg).
Qed.

Lemma call_on_duplicates (u : nat) (st : State) (c : call) :
  1 < length (backend_active (backend st) u) →
  call_user c = u →
  match c with
  | Watch env ctx user reason =>
      ∃ g, guard_of env st user = Some g
           ∧ call_out st c
             = (Ok tt,
                match g with
                | AlreadyWatched => mkState (backend st) (refreshed (backend st))
                | _ => st
                end,
                match g with
                | OnlyHumans => []
                | _ => [EvCacheRefresh (fetch_ok env)]
                end ++ [EvSend (guard_msg ctx user g)])
  | Unwatch env ctx user reason banned =>
      call_out st c
      = (Raise (if get_ok env then ValueError else ResponseCodeError), st,
         [EvApiGet (active_params u) (get_ok env)])
  end.
Proof.
  intros Hlen Hu.
  destruct c as [env ctx user reason|env ctx user reason banned];
    simpl in *; subst u.
  - destruct (guard_of env st user) as [g|] eqn:Hg.
    2:{ rewrite (guard_None_not_active _ _ _ Hg) in Hlen. simpl in Hlen. lia. }
    exists g. split; [done|]. rewrite (watch_guard _ ctx _ reason _ _ Hg).
    unfold guard_of in Hg.
    destruct g; [done| |]; destruct (user_bot user); try done;
      destruct (fetch_ok env); simpl in Hg; try done;
      by case_bool_decide.
  - destruct (get_ok env) eqn:Eg.
    + by rewrite (unwatch_many _ ctx _ reason banned _ Eg Hlen).
    + by rewrite (unwatch_get_failed _ ctx _ reason banned _ Eg).
Qed.

(** X16: two or more active watches of one user are beyond the reach of both
    operations: no sequence of [apply_watch] and [apply_unwatch] calls, on
    this user or on others, whatever the backend answers, changes the active
    watch records of that user.  Each call of the sequence that is about the
    user ends without a write: an [apply_unwatch] raises, [ValueError] at
    the destructuring of line 114 or the client's error when the query
    fails, having sent nothing and changed nothing; an [apply_watch] is
    rejected by one of its guards with that guard's message, never reaching
    [post_infraction], and leaves the backend as it was. *)
Theorem duplicate_watches_are_never_repaired (u : nat) (cs : list call)
    (st : State) :
  1 < length (backend_active (backend st) u) →
  (backend_active (backend (run_calls cs st)) u
     ≡ₚ backend_active (backend st) u
   ∧ length (backend_active (backend (run_calls cs st)) u)
     = length (backend_active (backend st) u))
  ∧ ∀ cs1 c cs2, cs = cs1 ++ c :: cs2 → call_user c = u →
      let before := run_calls cs1 st in
      let out := call_out before c in
      backend (st_of out) = backend before
      ∧ Forall (λ e, is_backend_write e = false) (evs_of out)
      ∧ match c with
        | Watch env ctx user reason =>
            res out = Ok tt
            ∧ ∃ g, guard_of env before user = Some g
                   ∧ sent (evs_of out) = [guard_msg ctx user g]
        | Unwatch env ctx user reason banned =>
            res out
            = Raise (if get_ok env then ValueError else ResponseCodeError)
            ∧ st_of out = before
            ∧ sent (evs_of out) = []
        end.
Proof.
  intros Hlen.
  assert (∀ cs' st', 1 < length (backend_active (backend st') u) →
            backend_active (backend (run_calls cs' st')) u
              ≡ₚ backend_active (backend st') u) as Hkeep.
  { induction cs' as [|c cs' IH]; intros st' Hlen'; [done|].
    simpl. pose proof (run_call_keeps_duplicates u st' c Hlen') as Hstep.
    rewrite IH by (by rewrite Hstep). done. }
  split.
  { pose proof (Hkeep cs st Hlen) as H. split; [done|by rewrite H]. }
  intros cs1 c cs2 _ Hu before out.
  assert (1 < length (backend_active (backend before) u)) as Hlen1.
  { subst before. by rewrite (Hkeep cs1 st Hlen). }
  pose proof (call_on_duplicates u before c Hlen1 Hu) as Hc.
  subst out.
  destruct c as [env ctx user reason|env ctx user reason banned].
  - destruct Hc as (g & Hg & ->).
    destruct g; simpl; repeat split; try (by repeat constructor);
      by eexists.
  - rewrite Hc. simpl. repeat split; by repeat constructor.
Qed.

Lemma duplicate_watches_are_never_repaired_witness :
  length (backend_active (backend (run_calls alice_calls watched_twice)) 7)
  = length (backend_active (backend watched_twice) 7)
  ∧ res (call_out
           (run_calls [Watch backend_up moderator alice "spam"] watched_twice)
           (Unwatch backend_up moderator alice "calmed down" false))
    = Raise ValueError.
Proof.
  assert (1 < length (backend_active (backend watched_twice) 7)) as Hlen
    by (vm_compute; lia).
  destruct (duplicate_watches_are_never_repaired 7
              [Watch backend_up moderator alice "spam";
               Unwatch backend_up moderator alice "calmed down" false]
              watched_twice Hlen) as [_ Hcalls].
  split.
  - exact (proj2 (proj1 (duplicate_watches_are_never_repaired 7 alice_calls
                           watched_twice Hlen))).
  - exact (proj1 (proj2 (proj2
      (Hcalls [Watch backend_up moderator alice "spam"]
         (Unwatch backend_up moderator alice "calmed down" false) []
         eq_refl eq_refl)))).
Defined.
